(** * Capability resolution and the network-deployment harness

    A shallow embedding of

    - [tpc_models/get_target_platform_capabilities.py]
      ([get_target_platform_capabilities], [get_tpc_model]),
    - [tpc_models/qnnpack_tpc/latest/__init__.py] (the module's bindings),
    - [tests_pytest/network_deployment/network_deployment_tests.py]
      ([NetworkDeploymentBaseTest])

    together with the properties the specification states about them.
    Python exceptions are results, the interpreter's mutable state (the
    environment, the file system, the random generator) is threaded
    explicitly, and dictionaries are finite maps. *)

From stdpp Require Import gmap strings list fin_maps pretty.
From Stdlib Require Import ZArith SpecFloat Ascii.

#[local] Open Scope string_scope.
#[local] Open Scope Z_scope.

(** ** The Python runtime *)

Module Py.

(** The exceptions that occur on the modelled paths. The last two are the
    failures the specification names for the Registry lookup. *)
Inductive exn : Type :=
| SystemExit (msg : string)
| KeyError (key : string)
| ValueError (msg : string)
| FileNotFoundError (path : string)
| PermissionError (path : string)
| UnicodeDecodeError
| MemoryError
| StopIteration
| CalledProcessError (returncode : Z) (cmd : list string)
| UnknownDeviceType (device_type : string)
| UnknownVersion (version : string).

(** The outcome of evaluating an expression: a value, or a raised exception. *)
Inductive result (A : Type) : Type :=
| Ok (a : A)
| Raise (e : exn).
Arguments Ok {A} a.
Arguments Raise {A} e.

#[export] Instance result_ret : MRet result := @Ok.
#[export] Instance result_bind : MBind result := λ A B f m,
  match m with
  | Ok a => f a
  | Raise e => Raise e
  end.

(** The scalar values a caller can pass as [tpc_version]. A float is its
    IEEE 754 binary64 datum (sign, mantissa, exponent). *)
Inductive pyval : Type :=
| PyNone
| PyBool (b : bool)
| PyInt (z : Z)
| PyFloat (f : spec_float)
| PyStr (s : string).

(** What the interpreter fixes about [str]. *)
Class Runtime : Type := {
  (** [sys.get_int_max_str_digits ()]: zero disables the limit. *)
  int_max_str_digits : nat;
  (** The shortest round-trip formatting of a float, used for the floats
      that are not integers below [10 ^ 16]. *)
  float_repr_short : spec_float → string;
}.

(** [str] of an [int]: the decimal digits, refused beyond the digit limit. *)
Definition int_str `{Runtime} (z : Z) : result string :=
  let digits := pretty (Z.abs z) in
  if bool_decide (int_max_str_digits ≠ 0%nat ∧
                  (int_max_str_digits < String.length digits)%nat)
  then Raise (ValueError
                ("Exceeds the limit (" +:+ pretty int_max_str_digits +:+
                 " digits) for integer string conversion; " +:+
                 "use sys.set_int_max_str_digits() to increase the limit"))
  else Ok (pretty z).

(** The integer a float denotes, when it denotes one. *)
Definition float_integer (f : spec_float) : option (bool * Z) :=
  match f with
  | S754_zero s => Some (s, 0)
  | S754_finite s m e =>
      if bool_decide (0 ≤ e) then Some (s, Z.pos m * 2 ^ e)
      else if bool_decide (Z.pos m `mod` 2 ^ (- e) = 0)
           then Some (s, Z.pos m `div` 2 ^ (- e))
           else None
  | _ => None
  end.

(** [repr] of a [float]: an integer below [10 ^ 16] prints in fixed
    notation with a trailing [.0]. *)
Definition float_repr `{Runtime} (f : spec_float) : string :=
  match f with
  | S754_nan => "nan"
  | S754_infinity s => if s then "-inf" else "inf"
  | _ =>
      match float_integer f with
      | Some (s, n) =>
          if bool_decide (n < 10 ^ 16)
          then (if s then "-" else "") +:+ pretty n +:+ ".0"
          else float_repr_short f
      | None => float_repr_short f
      end
  end.

(** The builtin [str]. *)
Definition str `{Runtime} (v : pyval) : result string :=
  match v with
  | PyNone => Ok "None"
  | PyBool b => Ok (if b then "True" else "False")
  | PyInt z => int_str z
  | PyFloat f => Ok (float_repr f)
  | PyStr s => Ok s
  end.

(** The float [1.0]: mantissa [2 ^ 52], exponent [-52]. *)
Definition float_one : spec_float := S754_finite false 4503599627370496 (-52).

End Py.

Import Py.

(** ** [get_target_platform_capabilities.py] *)

Module Resolver.

(** What the module imports from the rest of the package. *)
Class TpcModels (TPC : Type) : Type := {
  (** [tpc_models.generate_tpc_func]: the dispatcher of a device type. *)
  generate_tpc_func : string → result (string → result TPC);
  (** [constants.IMX500_TP_MODEL]. *)
  IMX500_TP_MODEL : string;
}.

Definition get_target_platform_capabilities `{Runtime} `{TpcModels TPC}
    (tpc_version : pyval) (device_type : string) : result TPC :=
  tpc_func ← generate_tpc_func device_type;
  tpc_version ← str tpc_version;
  tpc ← tpc_func tpc_version;
  mret tpc.

(** A call site: an omitted argument takes the default of the signature,
    [tpc_version = '1.0'] and [device_type = IMX500_TP_MODEL]. *)
Definition call_get_target_platform_capabilities `{Runtime} `{TpcModels TPC}
    (tpc_version : option pyval) (device_type : option string) : result TPC :=
  get_target_platform_capabilities
    (default (PyStr "1.0") tpc_version)
    (default IMX500_TP_MODEL device_type).

Definition get_tpc_model {TPC : Type} (name : pyval) (tpc : TPC) : TPC := tpc.

End Resolver.

(** ** The registry behind [generate_tpc_func] *)

Module Registry.
Import Resolver.

Section registry.
Context {TPC : Type}.

(** Modelled from the spec: the factory of one registered (device type,
    version) pair, which builds the descriptor when called. The factories
    live in [tpc_models/*/tpc.py], outside [src/]. *)
Definition factory : Type := unit → TPC.

(** Modelled from the spec: the per-device dispatcher, a mapping from
    version strings to factories matched by exact string equality, failing
    with [UnknownVersion] where it has no entry. The dispatchers are defined
    in [tpc_models/__init__.py], outside [src/]. *)
Definition dispatcher (versions : gmap string factory)
    (tpc_version : string) : result TPC :=
  match versions !! tpc_version with
  | Some make => Ok (make ())
  | None => Raise (UnknownVersion tpc_version)
  end.

(** Modelled from the spec: [generate_tpc_func] of
    [tpc_models/__init__.py], outside [src/], as the lookup of the device
    type in the process-wide read-only Registry, failing with
    [UnknownDeviceType] where the device type is absent. *)
Definition registry_generate_tpc_func
    (registry : gmap string (gmap string factory))
    (device_type : string) : result (string → result TPC) :=
  match registry !! device_type with
  | Some versions => Ok (dispatcher versions)
  | None => Raise (UnknownDeviceType device_type)
  end.

Definition registry_models (registry : gmap string (gmap string factory))
    (imx500 : string) : TpcModels TPC :=
  {| generate_tpc_func := registry_generate_tpc_func registry;
     IMX500_TP_MODEL := imx500 |}.

(** [resolve] of the specification: the source's function over a Registry. *)
Definition resolve `{Runtime}
    (registry : gmap string (gmap string factory)) (imx500 : string)
    (device_type : string) (version : pyval) : result TPC :=
  @get_target_platform_capabilities _ TPC (registry_models registry imx500)
    version device_type.

End registry.
End Registry.

(** ** [qnnpack_tpc/latest/__init__.py] *)

Module Qnnpack.

(** The objects the module binds: a flag, or a function known by the
    module that defines it and its name there. *)
Inductive obj : Type :=
| ObjBool (b : bool)
| ObjFunction (module : string) (qualname : string).

#[export] Instance obj_eq_dec : EqDecision obj.
Proof. solve_decision. Defined.

Definition v1_0_tpc : string :=
  "model_compression_toolkit.target_platform_capabilities.tpc_models.qnnpack_tpc.v1_0.tpc".
Definition get_target_platform_capabilities_py : string :=
  "model_compression_toolkit.target_platform_capabilities.tpc_models.get_target_platform_capabilities".

(** The function object of [Resolver.get_tpc_model]. *)
Definition get_tpc_model_obj : obj :=
  ObjFunction get_target_platform_capabilities_py "get_tpc_model".

(** [from module import name as alias]: bind [alias] in the namespace. *)
Definition import_as (module name alias : string)
    (ns : gmap string obj) : gmap string obj :=
  <[alias := ObjFunction module name]> ns.

(** The namespace after the module body has run, given the value
    [verify_packages.FOUND_TORCH] has. *)
Definition latest_init (FOUND_TORCH : bool) : gmap string obj :=
  let ns := <["FOUND_TORCH" := ObjBool FOUND_TORCH]> ∅ in
  let ns := import_as v1_0_tpc "get_tpc" "get_tpc" ns in
  let ns := import_as v1_0_tpc "generate_tpc" "generate_tpc" ns in
  let ns := import_as v1_0_tpc "get_op_quantization_configs"
              "get_op_quantization_configs" ns in
  if FOUND_TORCH then
    let ns := import_as get_target_platform_capabilities_py
                "get_tpc_model" "generate_pytorch_tpc" ns in
    let ns := import_as get_target_platform_capabilities_py
                "get_tpc_model" "generate_pytorch_tpc" ns in
    ns
  else ns.

(** What calling a bound object does, for the one function of [src/]. *)
Definition call_shim {TPC : Type} (o : obj) (name : pyval) (tpc : TPC)
    : option TPC :=
  if decide (o = get_tpc_model_obj) then Some (Resolver.get_tpc_model name tpc)
  else None.

End Qnnpack.

(** ** [posixpath] *)

Module Posixpath.

Definition sep : ascii := "/"%char.

Fixpoint ends_with_sep (p : string) : bool :=
  match p with
  | EmptyString => false
  | String c EmptyString => bool_decide (c = sep)
  | String _ rest => ends_with_sep rest
  end.

Definition starts_with_sep (p : string) : bool :=
  match p with
  | String c _ => bool_decide (c = sep)
  | EmptyString => false
  end.

(** [os.path.join a b]. *)
Definition join (a b : string) : string :=
  if starts_with_sep b then b
  else if bool_decide (a = "") || ends_with_sep a then a +:+ b
  else a +:+ "/" +:+ b.

(** [s.rstrip '/'], on the reversed characters. *)
Fixpoint lstrip_sep (cs : list ascii) : list ascii :=
  match cs with
  | c :: rest => if bool_decide (c = sep) then lstrip_sep rest else cs
  | [] => []
  end.

(** [p[: p.rfind '/' + 1]], on the reversed characters. *)
Fixpoint from_last_sep (cs : list ascii) : list ascii :=
  match cs with
  | c :: rest => if bool_decide (c = sep) then cs else from_last_sep rest
  | [] => []
  end.

(** [os.path.dirname p]. *)
Definition dirname (p : string) : string :=
  let head := from_last_sep (reverse (String.list_ascii_of_string p)) in
  let stripped := lstrip_sep head in
  String.string_of_list_ascii (reverse (if stripped is [] then head else stripped)).

End Posixpath.

(** ** [network_deployment_tests.py] *)

Module Deployment.
Import Resolver.

(** How starting a child process ends: it ran and exited with a return
    code, or it could not be started. *)
Inductive os_error : Type := ENOENT | EACCES.
Inductive spawn_outcome : Type :=
| Exited (returncode : Z)
| SpawnFailed (err : os_error).

(** The machine the interpreter runs on. *)
Class Host : Type := {
  FS : Type;
  RNG : Type;
  Sample : Type;
  (** [sys.executable]. *)
  sys_executable : string;
  (** [os.makedirs path ~exist_ok:true]. *)
  host_makedirs : string → FS → result () * FS;
  (** [os.path.exists]. *)
  host_exists : string → FS → bool;
  (** [shutil.rmtree]. *)
  host_rmtree : string → FS → result () * FS;
  (** A child process: its arguments, its environment, the disk it sees. *)
  host_spawn : list string → gmap string string → FS → spawn_outcome * FS;
  (** Whether what that child writes to its standard output and standard
      error decodes as text in the encoding of the locale. *)
  host_output_decodes : list string → gmap string string → FS → bool;
  (** One draw of [numpy]'s global generator. *)
  host_standard_normal : RNG → Sample * RNG;
  (** [NPY_MAXDIMS] of the installed [numpy]. *)
  npy_maxdims : nat;
  (** Whether the allocator grants the block [np.empty] asks for an array
      of doubles of the given shape. *)
  host_alloc : list Z → bool;
}.

(** A child process that was run: its arguments, its environment, how it
    ended and the disk as it left it. *)
Record proc_event `{Host} : Type := ProcEvent {
  ev_args : list string;
  ev_env : gmap string string;
  ev_outcome : spawn_outcome;
  ev_disk : FS;
}.
Arguments ProcEvent {_} _ _ _ _.

(** The process state a test run reads and writes. [procs] records the
    child processes run so far, most recent first. *)
Record world `{Host} : Type := World {
  environ : gmap string string;
  disk : FS;
  rng : RNG;
  procs : list proc_event;
}.
Arguments World {_} _ _ _ _.

(** Computations over the process state; a raised exception keeps the
    state reached. *)
Definition M `{Host} (A : Type) : Type := world → result A * world.

#[export] Instance M_ret `{Host} : MRet M := λ A a w, (Ok a, w).
#[export] Instance M_bind `{Host} : MBind M := λ A B f m w,
  match m w with
  | (Ok a, w') => f a w'
  | (Raise e, w') => (Raise e, w')
  end.

Definition raise `{Host} {A} (e : exn) : M A := λ w, (Raise e, w).
Definition lift `{Host} {A} (r : result A) : M A := λ w, (r, w).

Section library.
Context `{Host}.

(** [os.environ[key]]. *)
Definition os_environ_get (key : string) : M string := λ w,
  match environ w !! key with
  | Some v => (Ok v, w)
  | None => (Raise (KeyError key), w)
  end.

(** [os.environ[key] = value]. *)
Definition os_environ_set (key value : string) : M () := λ w,
  (Ok (), World (<[key := value]> (environ w)) (disk w) (rng w) (procs w)).

(** [os.environ.copy ()]. *)
Definition os_environ_copy : M (gmap string string) := λ w, (Ok (environ w), w).

Definition with_disk {A} (f : FS → result A * FS) : M A := λ w,
  let '(r, d) := f (disk w) in
  (r, World (environ w) d (rng w) (procs w)).

Definition os_makedirs (path : string) : M () := with_disk (host_makedirs path).
Definition os_path_exists (path : string) : M bool :=
  with_disk (λ d, (Ok (host_exists path d), d)).
Definition shutil_rmtree (path : string) : M () := with_disk (host_rmtree path).

Record CompletedProcess : Type := { args : list string; returncode : Z }.

Definition os_exn (err : os_error) (cmd : list string) : exn :=
  match err with
  | ENOENT => FileNotFoundError (default "" (head cmd))
  | EACCES => PermissionError (default "" (head cmd))
  end.

(** [subprocess.run cmd ~env ~check], with [stdout=PIPE, stderr=PIPE,
    text=True] when [text_pipes] is set. Without [env] the child inherits
    [os.environ]. With the pipes, what the child wrote is decoded once it
    has exited, and output that does not decode raises
    [UnicodeDecodeError] whatever the return code; [check] turns a non-zero
    return code into [CalledProcessError]. *)
Definition subprocess_run (cmd : list string)
    (env : option (gmap string string)) (check text_pipes : bool)
    : M CompletedProcess :=
  λ w,
  let env := default (environ w) env in
  let '(outcome, d) := host_spawn cmd env (disk w) in
  let w' := World (environ w) d (rng w) (ProcEvent cmd env outcome d :: procs w) in
  match outcome with
  | SpawnFailed err => (Raise (os_exn err cmd), w')
  | Exited rc =>
      if text_pipes && negb (host_output_decodes cmd env (disk w))
      then (Raise UnicodeDecodeError, w')
      else if check && bool_decide (rc ≠ 0)
      then (Raise (CalledProcessError rc cmd), w')
      else (Ok {| args := cmd; returncode := rc |}, w')
  end.

(** An array: its shape and its elements in row-major order. *)
Record ndarray : Type := { shape : list Z; data : list Sample }.

Fixpoint draw (n : nat) (g : RNG) : list Sample * RNG :=
  match n with
  | O => ([], g)
  | S n =>
      let '(x, g) := host_standard_normal g in
      let '(xs, g) := draw n g in
      (x :: xs, g)
  end.

Definition numel (dims : list Z) : Z := foldr Z.mul 1 dims.

(** The range of [npy_intp], the index type of [numpy]. *)
Definition npy_intp_min : Z := - 2 ^ 63.
Definition npy_intp_max : Z := 2 ^ 63 - 1.

(** The loop of [PyArray_NewFromDescr] over the dimensions, in order, from
    the number of bytes counted so far: a zero dimension is passed over, a
    negative one is refused, and so is one that takes the byte count
    beyond [npy_intp]. *)
Fixpoint check_dimensions (nbytes : Z) (dims : list Z) : result Z :=
  match dims with
  | [] => Ok nbytes
  | d :: dims =>
      if bool_decide (d = 0) then check_dimensions nbytes dims
      else if bool_decide (d < 0)
      then Raise (ValueError "negative dimensions are not allowed")
      else if bool_decide (npy_intp_max < nbytes * d)
      then Raise (ValueError
                    ("array is too big; `arr.size * arr.dtype.itemsize` " +:+
                     "is larger than the maximum possible size."))
      else check_dimensions (nbytes * d) dims
  end.

(** What [np.empty dims np.double] checks before it hands out the array:
    the number of dimensions, that every dimension converts to
    [npy_intp], the loop above from the eight bytes of a double, and the
    allocation. *)
Definition np_empty_checks (dims : list Z) : result () :=
  if bool_decide (npy_maxdims < length dims)%nat
  then Raise (ValueError
                ("maximum supported dimension for an ndarray is " +:+
                 pretty npy_maxdims +:+ ", found " +:+ pretty (length dims)))
  else if bool_decide (Forall (λ d, npy_intp_min ≤ d ≤ npy_intp_max) dims)
  then
    _ ← check_dimensions 8 dims;
    if host_alloc dims then Ok () else Raise MemoryError
  else Raise (ValueError "Maximum allowed dimension exceeded").

(** The shapes [np.empty] hands out an array of doubles for. *)
Definition np_empty_accepts (dims : list Z) : bool :=
  match np_empty_checks dims with Ok _ => true | Raise _ => false end.

(** [np.random.randn *dims], for at least one dimension: the array of
    [np.empty], filled from the global generator. (Without a dimension
    [randn] gives one draw as a scalar, here an array of no dimension;
    [__init__] always stores at least the batch size.) *)
Definition np_random_randn (dims : list Z) : M ndarray := λ w,
  match np_empty_checks dims with
  | Ok _ =>
      let '(xs, g) := draw (Z.to_nat (numel dims)) (rng w) in
      (Ok {| shape := dims; data := xs |}, World (environ w) (disk w) g (procs w))
  | Raise e => (Raise e, w)
  end.

(** The two version checks of [check_libs]. *)
Definition java_cmd : list string := ["java"; "-version"].
Definition imxconv_cmd : list string := ["imxconv-pt"; "--version"].

(** The event of a child that ran [cmd] and returned a non-zero code. *)
Definition returned_nonzero (cmd : list string) (ev : proc_event) : Prop :=
  ev_args ev = cmd ∧ ∃ rc, ev_outcome ev = Exited rc ∧ rc ≠ 0.

(** The event of a child that ran [cmd] and returned zero. *)
Definition returned_zero (cmd : list string) (ev : proc_event) : Prop :=
  ev_args ev = cmd ∧ ev_outcome ev = Exited 0.

(** [subprocess.run cmd] with the pipes and [text=True], started with the
    environment [env] on the disk [d], returns a result whose return code
    is [rc]: the child ran, exited with [rc], and its output decoded. *)
Definition run_returns (cmd : list string) (env : gmap string string)
    (d : FS) (rc : Z) : Prop :=
  (host_spawn cmd env d).1 = Exited rc ∧ host_output_decodes cmd env d = true.

End library.

(** *** [NetworkDeploymentBaseTest] *)

Record NetworkDeploymentBaseTest : Type := {
  tpc_version : pyval;
  device_type : string;
  save_folder : string;
  input_shape : list Z;
  num_calibration_iter : Z;
  num_of_inputs : Z;
}.

(** [__init__]; an omitted argument takes the default of the signature. *)
Definition init `{TpcModels TPC} (tpc_version : pyval)
    (device_type save_folder : option string) (input_shape : option (list Z))
    (batch_size num_calibration_iter num_of_inputs : option Z)
    : NetworkDeploymentBaseTest :=
  {| tpc_version := tpc_version;
     device_type := default IMX500_TP_MODEL device_type;
     save_folder := default "./" save_folder;
     input_shape := default 1 batch_size :: default [3; 224; 224] input_shape;
     num_calibration_iter := default 1 num_calibration_iter;
     num_of_inputs := default 1 num_of_inputs |}.

(** A generator object of [representative_data_gen]: the frame's [self],
    the position of its [range] iterator, and whether it has finished. *)
Record generator : Type := Generator {
  gi_self : NetworkDeploymentBaseTest;
  gi_index : Z;
  gi_finished : bool;
}.

(** The collaborators of the toolkit, given the bound method
    [self.representative_data_gen] as a callable. *)
Class Toolkit `{Host} (TPC : Type) : Type := {
  FloatModel : Type;
  QuantizedModel : Type;
  UserInfo : Type;
  pytorch_post_training_quantization :
    FloatModel → (() → generator) → TPC → M (QuantizedModel * UserInfo);
  pytorch_export_model : QuantizedModel → string → (() → generator) → M ();
}.

Section test.
Context `{Runtime} `{TpcModels TPC} `{Host} `{!Toolkit TPC}.

Definition get_input_shapes (self : NetworkDeploymentBaseTest) : list (list Z) :=
  (λ _, input_shape self) <$> seqZ 0 (num_of_inputs self).

Definition generate_inputs (self : NetworkDeploymentBaseTest) : M (list ndarray) :=
  mapM np_random_randn (get_input_shapes self).

(** Calling the generator function runs none of its body. *)
Definition representative_data_gen (self : NetworkDeploymentBaseTest) : generator :=
  Generator self 0 false.

(** [next g]: run the body to its next [yield], to its end
    ([StopIteration]) or to an exception, which also finishes it. *)
Definition next (g : generator) (w : world)
    : result (list ndarray) * generator * world :=
  let self := gi_self g in
  if gi_finished g then (Raise StopIteration, g, w)
  else if bool_decide (gi_index g < num_calibration_iter self) then
    match generate_inputs self w with
    | (Ok batch, w') => (Ok batch, Generator self (gi_index g + 1) false, w')
    | (Raise e, w') => (Raise e, Generator self (gi_index g + 1) true, w')
    end
  else (Raise StopIteration, Generator self (gi_index g) true, w).

(** A consumer asking for at most [demand] batches: what was yielded, and
    the exception that ended the iteration, if one did. *)
Fixpoint iterate (demand : nat) (g : generator) (w : world)
    : list (list ndarray) * option exn * generator * world :=
  match demand with
  | O => ([], None, g, w)
  | S demand =>
      match next g w with
      | (Ok batch, g, w) =>
          let '(batches, stop, g, w) := iterate demand g w in
          (batch :: batches, stop, g, w)
      | (Raise e, g, w) => ([], Some e, g, w)
      end
  end.


(** Two process states that differ at most in the random generator. *)
Definition same_but_rng (w w' : world) : Prop :=
  environ w' = environ w ∧ disk w' = disk w ∧ procs w' = procs w.

(** A computation that leaves [os.environ] as it found it. *)
Definition keeps_environ {A} (m : M A) : Prop :=
  ∀ w, environ (m w).2 = environ w.

Definition get_tpc (self : NetworkDeploymentBaseTest) : result TPC :=
  get_target_platform_capabilities (tpc_version self) (device_type self).

Definition run_mct (self : NetworkDeploymentBaseTest) (tpc : TPC)
    (float_model : FloatModel) (onnx_path : string) : M () :=
  '(quantized_model, _) ← pytorch_post_training_quantization float_model
                             (λ _, representative_data_gen self) tpc;
  pytorch_export_model quantized_model onnx_path
    (λ _, representative_data_gen self).

Definition check_libs (self : NetworkDeploymentBaseTest) : M () :=
  result ← subprocess_run ["java"; "-version"] None false true;
  (if bool_decide (returncode result ≠ 0)
   then raise (SystemExit "Stopping execution: Java is not installed.")
   else mret ());;
  result ← subprocess_run ["imxconv-pt"; "--version"] None false true;
  if bool_decide (returncode result ≠ 0)
  then raise (SystemExit "Stopping execution: IMX500 Converter is not installed.")
  else mret ().

Definition converter_cmd (self : NetworkDeploymentBaseTest) (onnx_path : string)
    : list string :=
  ["imxconv-pt"; "-i"; onnx_path; "-o"; save_folder self; "--overwrite-output"].

Definition run_test (self : NetworkDeploymentBaseTest)
    (float_model : FloatModel) : M () :=
  os_makedirs (save_folder self);;
  let onnx_path := Posixpath.join (save_folder self) "qmodel.onnx" in
  tpc ← lift (get_tpc self);
  run_mct self tpc float_model onnx_path;;
  check_libs self;;
  let cmd := converter_cmd self onnx_path in
  let env_bin_path := Posixpath.dirname sys_executable in
  path ← os_environ_get "PATH";
  os_environ_set "PATH" (env_bin_path +:+ ":" +:+ path);;
  env ← os_environ_copy;
  subprocess_run cmd (Some env) true false;;
  _ ← os_path_exists (save_folder self +:+ "/qmodel.pbtxt");
  shutil_rmtree (save_folder self).

End test.
End Deployment.

(** ** The test entry point of [network_deployment_tests.py] *)

Module TestEntry.
Import Resolver Deployment.

(** [torchvision.models]. *)
Class Torchvision `{Host} `{!Toolkit TPC} : Type := {
  mobilenet_v2 : M FloatModel;
}.

Section entry.
Context `{Runtime} `{TpcModels TPC} `{Host} `{!Toolkit TPC} `{!Torchvision}.

(** [os.getenv key]: the value of the variable, or [None] when it is unset. *)
Definition os_getenv (key : string) : M pyval := λ w,
  (Ok (from_option PyStr PyNone (environ w !! key)), w).

Definition test_network_deployment_tpc_version : M () :=
  tpc_version ← os_getenv "TPC_VERSION";
  float_model ← mobilenet_v2;
  let save_folder := "./mobilenet_pt" in
  run_test (init tpc_version (Some IMX500_TP_MODEL) (Some save_folder)
              None None None None)
    float_model.

(** A run of [run_test] that has come past [check_libs], in state [w3]. *)
Definition passes_checks (self : NetworkDeploymentBaseTest)
    (float_model : FloatModel) (w w3 : world) : Prop :=
  ∃ w1 tpc w2,
    os_makedirs (save_folder self) w = (Ok (), w1) ∧
    get_tpc self = Ok tpc ∧
    run_mct self tpc float_model
      (Posixpath.join (save_folder self) "qmodel.onnx") w1 = (Ok (), w2) ∧
    check_libs self w2 = (Ok (), w3).

(** [os.environ] after line 91 of [run_test], from the value [path] that
    [PATH] had. *)
Definition prepended (environ : gmap string string) (path : string)
    : gmap string string :=
  <["PATH" := Posixpath.dirname sys_executable +:+ ":" +:+ path]> environ.

(** The elements of a list of batches, in the order they were drawn. *)
Definition samples (batches : list (list ndarray)) : list Sample :=
  batches ≫= λ batch, batch ≫= data.

End entry.
End TestEntry.

(** ** A concrete machine

    One registry, one host and one toolkit on which the functions above
    run to a value. *)

Module Sim.
Import Resolver Registry Deployment.

(** Floats that are not integers do not occur in the runs below. *)
Definition runtime : Runtime :=
  {| int_max_str_digits := 4300; float_repr_short := λ _, "float" |}.

(** Descriptors are told apart by a label. *)
Definition registry : gmap string (gmap string (@factory string)) :=
  {[ "imx500" := {[ "1.0" := λ _, "imx500 v1.0" ]} ]}.

Definition models : TpcModels string := registry_models registry "imx500".

(** The disk is the list of the paths that exist. *)
Definition makedirs (path : string) (fs : list string) : result () * list string :=
  (Ok (), path :: fs).

Definition exists_ (path : string) (fs : list string) : bool :=
  bool_decide (path ∈ fs).

Definition rmtree (path : string) (fs : list string) : result () * list string :=
  if exists_ path fs
  then (Ok (), filter (λ p, p ≠ path ∧ ¬ String.prefix (path +:+ "/") p) fs)
  else (Raise (FileNotFoundError path), fs).

(** A converter that exits with code zero and writes [qmodel.pbtxt]. *)
Definition writing_converter (args fs : list string) : spawn_outcome * list string :=
  match args with
  | ["-i"; _; "-o"; out; "--overwrite-output"] =>
      (Exited 0, (out +:+ "/qmodel.pbtxt") :: fs)
  | _ => (Exited 0, fs)
  end.

(** A converter that exits with code zero and writes nothing. *)
Definition silent_converter (args fs : list string) : spawn_outcome * list string :=
  (Exited 0, fs).

Definition spawn (converter : list string → list string → spawn_outcome * list string)
    (cmd : list string) (env : gmap string string) (fs : list string)
    : spawn_outcome * list string :=
  match cmd with
  | ["java"; "-version"] => (Exited 0, fs)
  | "imxconv-pt" :: args => converter args fs
  | _ => (SpawnFailed ENOENT, fs)
  end.

Definition host (converter : list string → list string → spawn_outcome * list string)
    : Host :=
  {| FS := list string;
     RNG := nat;
     Sample := nat;
     sys_executable := "/opt/venv/bin/python3";
     host_makedirs := makedirs;
     host_exists := exists_;
     host_rmtree := rmtree;
     host_spawn := spawn converter;
     host_output_decodes := λ _ _ _, true;
     host_standard_normal := λ g, (g, S g);
     npy_maxdims := 32;
     host_alloc := λ _, true |}.

(** A toolkit that writes the exported model and nothing else. *)
Definition toolkit (converter : list string → list string → spawn_outcome * list string)
    : @Toolkit (host converter) string :=
  {| FloatModel := ();
     QuantizedModel := ();
     UserInfo := ();
     pytorch_post_training_quantization := λ _ _ _, mret ((), ());
     pytorch_export_model := λ _ onnx_path _,
       @with_disk (host converter) _ (λ fs, (Ok (), onnx_path :: fs)) |}.

(** The process state at start: an empty disk and a seeded generator. *)
Definition boot (converter : list string → list string → spawn_outcome * list string)
    : @world (host converter) :=
  @World (host converter)
    {[ "PATH" := "/usr/bin"; "HOME" := "/root" ]} ([] : list string) 0%nat [].

(** The test of [test_network_deployment_tpc_version] at version [1.0]. *)
Definition mobilenet_test : NetworkDeploymentBaseTest :=
  @init string models (PyStr "1.0") (Some "imx500") (Some "./mobilenet_pt")
    None None None None.

End Sim.

(** ** More machines: missing or failing tools *)

Module SimTools.
Import Resolver Registry Deployment TestEntry Sim.

(** A converter that exits with code one and writes nothing. *)
Definition failing_converter (args fs : list string) : spawn_outcome * list string :=
  (Exited 1, fs).

(** A machine on which [java -version] and [imxconv-pt --version] end as
    given. *)
Definition spawn_with (java imxconv : spawn_outcome)
    (converter : list string → list string → spawn_outcome * list string)
    (cmd : list string) (env : gmap string string) (fs : list string)
    : spawn_outcome * list string :=
  match cmd with
  | ["java"; "-version"] => (java, fs)
  | ["imxconv-pt"; "--version"] => (imxconv, fs)
  | "imxconv-pt" :: args => converter args fs
  | _ => (SpawnFailed ENOENT, fs)
  end.

Definition host_with (java imxconv : spawn_outcome)
    (converter : list string → list string → spawn_outcome * list string)
    : Host :=
  {| FS := list string;
     RNG := nat;
     Sample := nat;
     sys_executable := "/opt/venv/bin/python3";
     host_makedirs := makedirs;
     host_exists := exists_;
     host_rmtree := rmtree;
     host_spawn := spawn_with java imxconv converter;
     host_output_decodes := λ _ _ _, true;
     host_standard_normal := λ g, (g, S g);
     npy_maxdims := 32;
     host_alloc := λ _, true |}.

Definition toolkit_with (h : Host) (export : string → @M h ()) : @Toolkit h string :=
  {| FloatModel := ();
     QuantizedModel := ();
     UserInfo := ();
     pytorch_post_training_quantization := λ _ _ _, mret ((), ());
     pytorch_export_model := λ _ onnx_path _, export onnx_path |}.

(** The export writes the model file. *)
Definition export_with (java imxconv : spawn_outcome)
    (converter : list string → list string → spawn_outcome * list string)
    (onnx_path : string) : @M (host_with java imxconv converter) () :=
  @with_disk (host_with java imxconv converter) _
    (λ fs, (Ok (), onnx_path :: fs)).

Definition tools (java imxconv : spawn_outcome)
    (converter : list string → list string → spawn_outcome * list string)
    : @Toolkit (host_with java imxconv converter) string :=
  toolkit_with _ (export_with java imxconv converter).

Definition torchvision (java imxconv : spawn_outcome)
    (converter : list string → list string → spawn_outcome * list string)
    : @Torchvision (host_with java imxconv converter) string
        (tools java imxconv converter) :=
  {| mobilenet_v2 := λ w, (Ok (() : @FloatModel _ _ (tools java imxconv converter)), w) |}.

(** A process state with the given variables, an empty disk and a seeded
    generator. *)
Definition boot_with (java imxconv : spawn_outcome)
    (converter : list string → list string → spawn_outcome * list string)
    (environ : gmap string string) : @world (host_with java imxconv converter) :=
  @World (host_with java imxconv converter) environ ([] : list string) 0%nat [].

(** The machine with both tools installed, on which the converter prints
    its version in bytes that do not decode. *)
Definition garbled : Host :=
  {| FS := list string;
     RNG := nat;
     Sample := nat;
     sys_executable := "/opt/venv/bin/python3";
     host_makedirs := makedirs;
     host_exists := exists_;
     host_rmtree := rmtree;
     host_spawn := spawn_with (Exited 0) (Exited 0) silent_converter;
     host_output_decodes := λ cmd _ _,
       bool_decide (cmd ≠ ["imxconv-pt"; "--version"]);
     host_standard_normal := λ g, (g, S g);
     npy_maxdims := 32;
     host_alloc := λ _, true |}.

(** The variables of the process at start. *)
Definition usual_environ : gmap string string :=
  {[ "PATH" := "/usr/bin"; "HOME" := "/root" ]}.

(** The machine with both tools installed and the given converter. *)
Definition installed
    (converter : list string → list string → spawn_outcome * list string) : Host :=
  host_with (Exited 0) (Exited 0) converter.

(** The machine without [java]. *)
Definition no_java : Host :=
  host_with (SpawnFailed ENOENT) (Exited 0) silent_converter.

(** A test of two calibration iterations, two inputs of shape [(1, 2, 3)]. *)
Definition small_test : NetworkDeploymentBaseTest :=
  @init string models (PyStr "1.0") None None (Some [2; 3]) (Some 1) (Some 2) (Some 2).

(** A test whose shape has a negative dimension. *)
Definition negative_test : NetworkDeploymentBaseTest :=
  @init string models (PyStr "1.0") None None (Some [2; -3]) (Some 1) (Some 2) (Some 2).

(** A test that asks for no iteration and no input. *)
Definition empty_test : NetworkDeploymentBaseTest :=
  @init string models (PyStr "1.0") None None (Some [2; -3]) (Some 1) (Some 0) (Some 0).

(** The test of [Sim.mobilenet_test] at a version that is not registered. *)
Definition unregistered_test : NetworkDeploymentBaseTest :=
  @init string models (PyStr "2.0") (Some "imx500") (Some "./mobilenet_pt")
    None None None None.

End SimTools.

(** * Properties *)

(** ** Resolution *)

Module ResolverFacts.
Import Resolver Registry.

Section facts.
Context `{Runtime} `{TpcModels TPC}.

Lemma str_of_str (s : string) : str (PyStr s) = Ok s.
Proof. reflexivity. Qed.

Lemma bind_mret {A} (m : result A) : m ≫= mret = m.
Proof. by destruct m. Qed.

(** The three steps of the body, in order: a failure of the lookup comes
    first, then one of the coercion, then the dispatcher's own outcome. *)
Lemma get_target_platform_capabilities_unfold
    (tpc_version : pyval) (device_type : string) :
  get_target_platform_capabilities tpc_version device_type =
  match generate_tpc_func device_type with
  | Raise e => Raise e
  | Ok tpc_func =>
      match str tpc_version with
      | Raise e => Raise e
      | Ok version => tpc_func version
      end
  end.
Proof.
  unfold get_target_platform_capabilities.
  destruct (generate_tpc_func device_type) as [tpc_func|e]; simpl; [|done].
  destruct (str tpc_version) as [version|e]; simpl; [|done].
  apply bind_mret.
Qed.

(** C1: resolution looks the device type up first to obtain its
    dispatcher, then coerces the version with [str], then calls the
    dispatcher on the coerced string and returns exactly what the
    dispatcher returned: with [tpc_func] the dispatcher of [device_type] and
    [version] the string of [tpc_version], the result is [tpc_func version];
    a failure of the lookup is raised before the coercion is attempted, and
    a failure of the coercion before the dispatcher is called. *)
Theorem resolve_is_dispatch (tpc_version : pyval) (device_type : string) :
  (∀ tpc_func version,
     generate_tpc_func device_type = Ok tpc_func →
     str tpc_version = Ok version →
     get_target_platform_capabilities tpc_version device_type = tpc_func version) ∧
  (∀ e, generate_tpc_func device_type = Raise e →
     get_target_platform_capabilities tpc_version device_type = Raise e) ∧
  (∀ tpc_func e,
     generate_tpc_func device_type = Ok tpc_func →
     str tpc_version = Raise e →
     get_target_platform_capabilities tpc_version device_type = Raise e) ∧
  get_target_platform_capabilities tpc_version device_type =
    generate_tpc_func device_type ≫= λ tpc_func,
      str tpc_version ≫= tpc_func.
Proof.
  rewrite get_target_platform_capabilities_unfold.
  split_and!.
  - by intros tpc_func version -> ->.
  - by intros e ->.
  - by intros tpc_func e -> ->.
  - destruct (generate_tpc_func device_type); simpl; [|done].
    by destruct (str tpc_version).
Qed.

(** C4: a version value and its string form resolve identically: when
    [str] of the value is the string [version], resolving the value and
    resolving [version] itself give the same descriptor or the same error,
    for every device type. *)
Theorem version_canonicalization_stable
    (tpc_version : pyval) (version device_type : string) :
  str tpc_version = Ok version →
  get_target_platform_capabilities tpc_version device_type =
  get_target_platform_capabilities (PyStr version) device_type.
Proof.
  intros Hstr. rewrite !get_target_platform_capabilities_unfold.
  by rewrite Hstr, str_of_str.
Qed.

(** C9: a call that omits both arguments is the call at version ['1.0']
    and device type [IMX500_TP_MODEL]; each default also applies alone. *)
Theorem omitted_arguments_default :
  call_get_target_platform_capabilities None None =
    call_get_target_platform_capabilities (Some (PyStr "1.0")) (Some IMX500_TP_MODEL) ∧
  call_get_target_platform_capabilities None None =
    get_target_platform_capabilities (PyStr "1.0") IMX500_TP_MODEL ∧
  (∀ device_type,
     call_get_target_platform_capabilities None (Some device_type) =
     get_target_platform_capabilities (PyStr "1.0") device_type) ∧
  (∀ tpc_version,
     call_get_target_platform_capabilities (Some tpc_version) None =
     get_target_platform_capabilities tpc_version IMX500_TP_MODEL) ∧
  call_get_target_platform_capabilities None None =
    generate_tpc_func IMX500_TP_MODEL ≫= λ tpc_func, tpc_func "1.0".
Proof.
  split_and!; try done.
  unfold call_get_target_platform_capabilities; simpl.
  rewrite get_target_platform_capabilities_unfold.
  by destruct (generate_tpc_func IMX500_TP_MODEL).
Qed.

(** C5: the shim returns the very descriptor it was given, whatever the
    name: the empty string, [None] or any other value. [TPC] is any
    representation of descriptors, object references included, so the
    equality is one of identity. *)
Theorem get_tpc_model_returns_argument (name : pyval) (tpc : TPC) :
  get_tpc_model name tpc = tpc ∧
  get_tpc_model (PyStr "") tpc = tpc ∧
  get_tpc_model PyNone tpc = tpc ∧
  ∀ name', get_tpc_model name' tpc = get_tpc_model name tpc.
Proof. by repeat split. Qed.

End facts.

(** The float [1.0] and the string ["1.0"] resolve to the same descriptor. *)
Lemma version_canonicalization_stable_witness :
  @str Sim.runtime (PyFloat float_one) = Ok "1.0" ∧
  @get_target_platform_capabilities Sim.runtime _ Sim.models
    (PyFloat float_one) "imx500" =
  @get_target_platform_capabilities Sim.runtime _ Sim.models
    (PyStr "1.0") "imx500".
Proof.
  split; [reflexivity|].
  apply (@version_canonicalization_stable Sim.runtime _ Sim.models).
  reflexivity.
Defined.

End ResolverFacts.

(** ** Resolution over a Registry *)

Module RegistryFacts.
Import Resolver Registry.

Section facts.
Context `{Runtime} {TPC : Type}.
Implicit Types (registry : gmap string (gmap string (@factory TPC))).

Lemma resolve_unfold registry imx500 device_type version :
  resolve registry imx500 device_type version =
  match registry !! device_type with
  | None => Raise (UnknownDeviceType device_type)
  | Some versions =>
      match str version with
      | Raise e => Raise e
      | Ok s => dispatcher versions s
      end
  end.
Proof.
  unfold resolve.
  rewrite ResolverFacts.get_target_platform_capabilities_unfold; simpl.
  unfold registry_generate_tpc_func.
  by destruct (registry !! device_type).
Qed.

(** C3: resolution returns a descriptor or fails outright. A device type
    absent from the Registry fails with [UnknownDeviceType] whatever the
    version; a registered device type whose dispatcher has no entry for the
    string of the version fails with [UnknownVersion]; and a descriptor that
    is returned was built by the factory registered under exactly that
    device type and that version string, never by another entry. *)
Theorem resolve_fails_outright registry imx500 device_type version :
  (registry !! device_type = None →
   resolve registry imx500 device_type version =
     Raise (UnknownDeviceType device_type)) ∧
  (∀ versions s,
     registry !! device_type = Some versions →
     str version = Ok s →
     versions !! s = None →
     resolve registry imx500 device_type version = Raise (UnknownVersion s)) ∧
  (∀ tpc,
     resolve registry imx500 device_type version = Ok tpc →
     ∃ versions s make,
       registry !! device_type = Some versions ∧
       str version = Ok s ∧
       versions !! s = Some make ∧
       tpc = make ()).
Proof.
  rewrite resolve_unfold. unfold dispatcher, factory in *. split_and!.
  - by intros ->.
  - intros versions s -> -> Hs. by rewrite Hs.
  - intros tpc.
    destruct (registry !! device_type) as [versions|]; [|done].
    destruct (str version) as [s|e]; [|done].
    destruct (versions !! s) as [make|] eqn:Hs; [|done].
    intros [= <-]. by exists versions, s, make.
Qed.

End facts.

(** The scenario of the specification: a registry holding only
    [deviceA -> {"1.0": factoryX}]. *)
Example resolve_scenario :
  let registry : gmap string (gmap string (@factory string)) :=
    {[ "deviceA" := {[ "1.0" := λ _, "X" ]} ]} in
  @resolve _ Sim.runtime registry "imx500" "deviceA" (PyStr "1.0") = Ok "X" ∧
  @resolve _ Sim.runtime registry "imx500" "deviceA" (PyStr "2.0") =
    Raise (UnknownVersion "2.0") ∧
  @resolve _ Sim.runtime registry "imx500" "deviceB" (PyStr "1.0") =
    Raise (UnknownDeviceType "deviceB").
Proof. by vm_compute. Qed.

End RegistryFacts.

(** ** The bindings of [qnnpack_tpc/latest] *)

Module QnnpackFacts.
Import Qnnpack.

Lemma latest_init_shim (FOUND_TORCH : bool) (name : string) :
  latest_init FOUND_TORCH !! name = Some get_tpc_model_obj ↔
  FOUND_TORCH = true ∧ name = "generate_pytorch_tpc".
Proof.
  unfold latest_init, import_as, get_tpc_model_obj.
  destruct FOUND_TORCH; cbv zeta;
    rewrite !lookup_insert_Some, lookup_empty; intuition congruence.
Qed.

Lemma latest_init_shim_lookup (o : obj) :
  latest_init true !! "generate_pytorch_tpc" = Some o → o = get_tpc_model_obj.
Proof.
  unfold latest_init, import_as; cbv zeta.
  rewrite lookup_insert_eq. by intros [= <-].
Qed.

(** C7, as stated, fails: with [FOUND_TORCH] true the module does not bind
    two different names to the shim. *)
Lemma latest_two_names_counterexample :
  ¬ ∃ name1 name2 : string,
      name1 ≠ name2 ∧
      latest_init true !! name1 = Some get_tpc_model_obj ∧
      latest_init true !! name2 = Some get_tpc_model_obj.
Proof.
  intros (name1 & name2 & Hne & H1 & H2).
  apply latest_init_shim in H1 as [_ ->].
  apply latest_init_shim in H2 as [_ ->].
  done.
Qed.

(** C7, amended: the module binds the shim under one name,
    [generate_pytorch_tpc], and only when [FOUND_TORCH] is true; the import
    statement lists that alias twice, and the second binding changes
    nothing. Calling the bound object returns the descriptor passed. *)
Theorem latest_binds_one_alias (FOUND_TORCH : bool) :
  (∀ name,
     latest_init FOUND_TORCH !! name = Some get_tpc_model_obj ↔
     FOUND_TORCH = true ∧ name = "generate_pytorch_tpc") ∧
  (∀ ns,
     import_as get_target_platform_capabilities_py "get_tpc_model"
       "generate_pytorch_tpc"
       (import_as get_target_platform_capabilities_py "get_tpc_model"
          "generate_pytorch_tpc" ns) =
     import_as get_target_platform_capabilities_py "get_tpc_model"
       "generate_pytorch_tpc" ns) ∧
  (∀ (TPC : Type) o name (tpc : TPC),
     latest_init true !! "generate_pytorch_tpc" = Some o →
     call_shim o name tpc = Some tpc).
Proof.
  split_and!.
  - apply latest_init_shim.
  - intros ns. unfold import_as. apply insert_insert_eq.
  - intros TPC o name tpc Ho.
    apply latest_init_shim_lookup in Ho as ->.
    unfold call_shim. by rewrite decide_True.
Qed.

End QnnpackFacts.

(** ** The deployment test *)

Module DeploymentFacts.
Import Resolver Deployment.

Section facts.
Context `{Runtime} `{TpcModels TPC} `{Host} `{!Toolkit TPC}.

(** *** Sequencing *)

Lemma bind_run {A B} (m : M A) (f : A → M B) (w : world) :
  (m ≫= f) w =
  match m w with
  | (Ok a, w') => f a w'
  | (Raise e, w') => (Raise e, w')
  end.
Proof. reflexivity. Qed.

Lemma bind_returns {A B} (m : M A) (f : A → M B) (w w' : world) (b : B) :
  (m ≫= f) w = (Ok b, w') →
  ∃ a w1, m w = (Ok a, w1) ∧ f a w1 = (Ok b, w').
Proof.
  rewrite bind_run. destruct (m w) as [[a|e] w1]; [|done].
  intros Hf. by exists a, w1.
Qed.

(** *** [check_libs] *)

Lemma subprocess_run_unchecked (cmd : list string) (w : world) :
  subprocess_run cmd None false true w =
  let '(outcome, d) := host_spawn cmd (environ w) (disk w) in
  let w' := World (environ w) d (rng w)
              (ProcEvent cmd (environ w) outcome d :: procs w) in
  match outcome with
  | SpawnFailed err => (Raise (os_exn err cmd), w')
  | Exited rc =>
      if host_output_decodes cmd (environ w) (disk w)
      then (Ok {| args := cmd; returncode := rc |}, w')
      else (Raise UnicodeDecodeError, w')
  end.
Proof.
  unfold subprocess_run; simpl.
  destruct (host_spawn cmd (environ w) (disk w)) as [[rc|err] d]; [|done].
  by destruct (host_output_decodes cmd (environ w) (disk w)).
Qed.

Lemma os_exn_not_exit (err : os_error) (cmd : list string) (msg : string) :
  os_exn err cmd ≠ SystemExit msg.
Proof. by destruct err. Qed.

(** [check_libs], run: the converter is asked only after the call for
    [java] has returned with code zero; a child that cannot be started
    raises the error of the operating system, and one whose output does
    not decode raises [UnicodeDecodeError]. *)
Lemma check_libs_run (self : NetworkDeploymentBaseTest) (w : world) :
  check_libs self w =
  let '(o1, d1) := host_spawn java_cmd (environ w) (disk w) in
  let w1 := World (environ w) d1 (rng w)
              (ProcEvent java_cmd (environ w) o1 d1 :: procs w) in
  match o1 with
  | SpawnFailed err => (Raise (os_exn err java_cmd), w1)
  | Exited rc1 =>
      if negb (host_output_decodes java_cmd (environ w) (disk w))
      then (Raise UnicodeDecodeError, w1)
      else if bool_decide (rc1 ≠ 0)
      then (Raise (SystemExit "Stopping execution: Java is not installed."), w1)
      else
        let '(o2, d2) := host_spawn imxconv_cmd (environ w) d1 in
        let w2 := World (environ w) d2 (rng w)
                    (ProcEvent imxconv_cmd (environ w) o2 d2 :: procs w1) in
        match o2 with
        | SpawnFailed err => (Raise (os_exn err imxconv_cmd), w2)
        | Exited rc2 =>
            if negb (host_output_decodes imxconv_cmd (environ w) d1)
            then (Raise UnicodeDecodeError, w2)
            else if bool_decide (rc2 ≠ 0)
            then (Raise (SystemExit
                           "Stopping execution: IMX500 Converter is not installed."),
                  w2)
            else (Ok (), w2)
        end
  end.
Proof.
  unfold check_libs, java_cmd, imxconv_cmd.
  rewrite bind_run, subprocess_run_unchecked.
  destruct (host_spawn _ (environ w) (disk w)) as [[rc1|err1] d1]; simpl; [|done].
  destruct (host_output_decodes _ (environ w) (disk w)); simpl; [|done].
  rewrite bind_run. case_bool_decide; simpl; [done|].
  rewrite bind_run, subprocess_run_unchecked; simpl.
  destruct (host_spawn _ (environ w) d1) as [[rc2|err2] d2]; simpl; [|done].
  destruct (host_output_decodes _ (environ w) d1); simpl; [|done].
  by case_bool_decide.
Qed.

(** C6, amended: [check_libs] always runs [java -version], and runs
    [imxconv-pt --version] exactly when the call for [java] has returned
    with code zero. It raises [SystemExit] exactly when one of the calls it
    makes returns a non-zero exit code, and it returns normally exactly
    when both calls return the code zero. A call returns when the child
    could be started and what it wrote decodes as text; otherwise the call
    raises the error of the operating system or [UnicodeDecodeError], and
    so does [check_libs], whatever the child's exit code. *)
Theorem check_libs_exit_iff_nonzero (self : NetworkDeploymentBaseTest) (w : world) :
  let env := environ w in
  let java := host_spawn java_cmd env (disk w) in
  let imxconv := host_spawn imxconv_cmd env java.2 in
  let r := check_libs self w in
  (∃ rest,
     procs r.2 = (rest ++ ProcEvent java_cmd env java.1 java.2 :: procs w)%list ∧
     ((rest = [] ∧ ¬ run_returns java_cmd env (disk w) 0) ∨
      (rest = [ProcEvent imxconv_cmd env imxconv.1 imxconv.2] ∧
       run_returns java_cmd env (disk w) 0))) ∧
  ((∃ msg, r.1 = Raise (SystemExit msg)) ↔
   (∃ rc, rc ≠ 0 ∧ run_returns java_cmd env (disk w) rc) ∨
   (run_returns java_cmd env (disk w) 0 ∧
    ∃ rc, rc ≠ 0 ∧ run_returns imxconv_cmd env java.2 rc)) ∧
  (r.1 = Ok () ↔
   run_returns java_cmd env (disk w) 0 ∧ run_returns imxconv_cmd env java.2 0) ∧
  (r.1 = Ok () ∨ (∃ msg, r.1 = Raise (SystemExit msg)) ∨
   r.1 = Raise UnicodeDecodeError ∨
   ∃ err cmd, r.1 = Raise (os_exn err cmd)).
Proof.
  intros env java imxconv r. subst r imxconv java env.
  rewrite check_libs_run. unfold run_returns.
  destruct (host_spawn java_cmd (environ w) (disk w)) as [[rc1|err1] d1]; simpl.
  2:{ split_and!.
      - exists []. split; [done|]. left. split; [done|]. by intros [[=] _].
      - split; [intros [msg [= Hexn]]; by apply os_exn_not_exit in Hexn|].
        intros [(rc & _ & [=] & _)|[[[=] _] _]].
      - split; [done|]. by intros [[[=] _] _].
      - right; right; right. by eexists _, _. }
  destruct (host_output_decodes java_cmd (environ w) (disk w)); simpl.
  2:{ split_and!.
      - exists []. split; [done|]. left. split; [done|]. by intros [_ [=]].
      - split; [by intros [msg [=]]|].
        intros [(rc & _ & _ & [=])|[[_ [=]] _]].
      - split; [done|]. by intros [[_ [=]] _].
      - by right; right; left. }
  case_bool_decide as Hrc1; simpl.
  { split_and!.
    - exists []. split; [done|]. left. split; [done|]. intros [[= ->] _]. done.
    - split; [|by eauto]. intros _. left. by exists rc1.
    - split; [done|]. intros [[[= ->] _] _]. done.
    - right; left. by eexists. }
  assert (rc1 = 0) as -> by lia.
  destruct (host_spawn imxconv_cmd (environ w) d1) as [[rc2|err2] d2]; simpl.
  2:{ split_and!.
      - eexists [_]. split; [done|]. by right.
      - split; [intros [msg [= Hexn]]; by apply os_exn_not_exit in Hexn|].
        intros [(rc & Hrc & [= <-] & _)|[_ (rc & _ & [=] & _)]]. done.
      - split; [done|]. by intros [_ [[=] _]].
      - right; right; right. by eexists _, _. }
  destruct (host_output_decodes imxconv_cmd (environ w) d1); simpl.
  2:{ split_and!.
      - eexists [_]. split; [done|]. by right.
      - split; [by intros [msg [=]]|].
        intros [(rc & Hrc & [= <-] & _)|[_ (rc & _ & _ & [=])]]. done.
      - split; [done|]. by intros [_ [_ [=]]].
      - by right; right; left. }
  case_bool_decide as Hrc2; simpl.
  - split_and!.
    + eexists [_]. split; [done|]. by right.
    + split; [|by eauto]. intros _. right. split; [done|]. by exists rc2.
    + split; [done|]. intros [_ [[= ->] _]]. done.
    + right; left. by eexists.
  - assert (rc2 = 0) as -> by lia. split_and!.
    + eexists [_]. split; [done|]. by right.
    + split; [by intros [msg [=]]|].
      intros [(rc & Hrc & [= <-] & _)|[_ (rc & Hrc & [= <-] & _)]]; done.
    + done.
    + by left.
Qed.

(** *** [representative_data_gen] *)

Lemma same_but_rng_refl (w : world) : same_but_rng w w.
Proof. done. Qed.








Lemma get_input_shapes_replicate (self : NetworkDeploymentBaseTest) :
  get_input_shapes self =
  replicate (Z.to_nat (num_of_inputs self)) (input_shape self).
Proof.
  unfold get_input_shapes, seqZ. rewrite <- list_fmap_compose.
  generalize 0%nat at 1.
  induction (Z.to_nat (num_of_inputs self)) as [|k IH]; intros start; simpl; [done|].
  by rewrite IH.
Qed.




(** *** [run_test] *)

Lemma keeps_environ_run {A} (m : M A) (w w' : world) (r : result A) :
  keeps_environ m → m w = (r, w') → environ w' = environ w.
Proof. intros Hm Hrun. specialize (Hm w). by rewrite Hrun in Hm. Qed.

Lemma keeps_environ_bind {A B} (m : M A) (f : A → M B) :
  keeps_environ m → (∀ a, keeps_environ (f a)) → keeps_environ (m ≫= f).
Proof.
  intros Hm Hf w. rewrite bind_run. specialize (Hm w).
  destruct (m w) as [[a|e] w1]; simpl in *; [|done].
  by rewrite Hf.
Qed.

Lemma keeps_environ_ret {A} (a : A) : keeps_environ (mret a).
Proof. done. Qed.

Lemma keeps_environ_raise {A} (e : exn) : keeps_environ (@raise _ A e).
Proof. done. Qed.

Lemma keeps_environ_with_disk {A} (f : FS → result A * FS) :
  keeps_environ (with_disk f).
Proof. intros w. unfold with_disk. by destruct (f (disk w)). Qed.

Lemma keeps_environ_subprocess_run cmd env check text_pipes :
  keeps_environ (subprocess_run cmd env check text_pipes).
Proof.
  intros w. unfold subprocess_run.
  destruct (host_spawn _ _ _) as [[rc|err] d]; [|done].
  destruct (text_pipes && _); [done|]. by destruct (check && _).
Qed.

Lemma keeps_environ_check_libs (self : NetworkDeploymentBaseTest) :
  keeps_environ (check_libs self).
Proof.
  unfold check_libs.
  repeat (apply keeps_environ_bind; [|intros ?]);
    try apply keeps_environ_subprocess_run;
    case_bool_decide;
    auto using @keeps_environ_ret, @keeps_environ_raise.
Qed.

Lemma keeps_environ_run_mct self tpc float_model onnx_path :
  (∀ m g t, keeps_environ (pytorch_post_training_quantization m g t)) →
  (∀ q p g, keeps_environ (pytorch_export_model q p g)) →
  keeps_environ (run_mct self tpc float_model onnx_path).
Proof.
  intros Hptq Hexport. unfold run_mct.
  apply keeps_environ_bind; [apply Hptq|]. intros [q info]. apply Hexport.
Qed.

Lemma with_disk_procs {A} (f : FS → result A * FS) (w w' : world) (r : result A) :
  with_disk f w = (r, w') → procs w' = procs w.
Proof. unfold with_disk. destruct (f (disk w)). by intros [= _ <-]. Qed.

(** C10: a run of [run_test] that returns has put the directory of the
    running interpreter in front of [os.environ["PATH"]], the child
    environment of the converter already holds the new value, the new value
    is still in [os.environ] when [run_test] returns, and every other
    variable is as it was. The toolkit's two collaborators are taken not to
    write to [os.environ]. *)
Theorem run_test_prepends_path (self : NetworkDeploymentBaseTest)
    (float_model : FloatModel) (w w' : world) :
  (∀ m g t, keeps_environ (pytorch_post_training_quantization m g t)) →
  (∀ q p g, keeps_environ (pytorch_export_model q p g)) →
  run_test self float_model w = (Ok (), w') →
  ∃ path,
    environ w !! "PATH" = Some path ∧
    environ w' =
      <["PATH" := Posixpath.dirname sys_executable +:+ ":" +:+ path]> (environ w) ∧
    (∀ key, key ≠ "PATH" → environ w' !! key = environ w !! key) ∧
    ∃ ev events,
      procs w' = ev :: events ∧
      ev_args ev =
        converter_cmd self (Posixpath.join (save_folder self) "qmodel.onnx") ∧
      ev_env ev = environ w'.
Proof.
  intros Hptq Hexport Hrun. unfold run_test in Hrun.
  apply bind_returns in Hrun as ([] & w1 & Hmk & Hrun); cbv beta zeta in Hrun.
  apply bind_returns in Hrun as (tpc & w2 & Htpc & Hrun).
  apply bind_returns in Hrun as ([] & w3 & Hmct & Hrun).
  apply bind_returns in Hrun as ([] & w4 & Hlibs & Hrun); cbv beta zeta in Hrun.
  apply bind_returns in Hrun as (path & w5 & Hget & Hrun).
  apply bind_returns in Hrun as ([] & w6 & Hset & Hrun).
  apply bind_returns in Hrun as (env & w7 & Hcopy & Hrun).
  apply bind_returns in Hrun as (done_ & w8 & Hconv & Hrun).
  apply bind_returns in Hrun as (found & w9 & Hexists & Hrun).
  (* the environment up to the assignment *)
  apply keeps_environ_run in Hmk as E1; [|apply keeps_environ_with_disk].
  assert (w2 = w1) as -> by (unfold lift in Htpc; congruence).
  apply keeps_environ_run in Hmct as E3; [|by apply keeps_environ_run_mct].
  apply keeps_environ_run in Hlibs as E4; [|apply keeps_environ_check_libs].
  assert (environ w4 = environ w) as E by congruence.
  unfold os_environ_get in Hget.
  destruct (environ w4 !! "PATH") as [path'|] eqn:Hpath; [|done].
  injection Hget as <- <-.
  unfold os_environ_set in Hset. injection Hset as <-.
  unfold os_environ_copy in Hcopy. injection Hcopy as <- <-. simpl in Hconv.
  (* the converter and what follows *)
  unfold subprocess_run in Hconv; simpl in Hconv.
  destruct (host_spawn _ _ (disk w4)) as [[rc|err] d]; [|done].
  case_bool_decide; [done|]. injection Hconv as <- <-.
  apply keeps_environ_run in Hexists as E9; [|apply keeps_environ_with_disk].
  unfold os_path_exists in Hexists. apply with_disk_procs in Hexists as P9.
  apply keeps_environ_run in Hrun as E10; [|apply keeps_environ_with_disk].
  unfold shutil_rmtree in Hrun. apply with_disk_procs in Hrun as P10.
  simpl in E9, P9. rewrite E in *.
  exists path'. split_and!.
  - done.
  - congruence.
  - intros key Hkey. rewrite E10, E9. by rewrite lookup_insert_ne.
  - eexists _, _. split_and!; [by rewrite P10, P9|done|].
    simpl. congruence.
Qed.

End facts.
End DeploymentFacts.

(** ** Runs on the concrete machine *)

Module Runs.
Import Resolver Deployment DeploymentFacts Sim.



(** C6, as stated, fails: on a machine where both version checks exit
    with code zero and the converter's version does not decode,
    [check_libs] does not return normally. *)
Lemma check_libs_zero_codes_counterexample :
  let r := @check_libs SimTools.garbled mobilenet_test
             (@World SimTools.garbled SimTools.usual_environ
                ([] : list string) 0%nat []) in
  ¬ ((∃ ev, ev ∈ procs r.2 ∧ returned_zero java_cmd ev) ∧
     (∃ ev, ev ∈ procs r.2 ∧ returned_zero imxconv_cmd ev) →
     r.1 = Ok ()).
Proof.
  intros r Hclaim.
  assert (r.1 = Ok ()) as Hok; [|by vm_compute in Hok].
  apply Hclaim. split.
  - eexists. split; [apply list_elem_of_further, list_elem_of_here|].
    by split; vm_compute.
  - eexists. split; [apply list_elem_of_here|]. by split; vm_compute.
Qed.

Lemma sim_toolkit_keeps_environ converter :
  (∀ m g t, keeps_environ
     (@pytorch_post_training_quantization _ _ (toolkit converter) m g t)) ∧
  (∀ q p g, keeps_environ (@pytorch_export_model _ _ (toolkit converter) q p g)).
Proof. split; intros; intros w; reflexivity. Qed.

(** The run of the test with a converter that writes its artifact. *)
Lemma run_test_prepends_path_witness :
  let run := @run_test runtime _ models (host writing_converter)
               (toolkit writing_converter) mobilenet_test ()
               (boot writing_converter) in
  run.1 = Ok () ∧
  environ run.2 = {[ "PATH" := "/opt/venv/bin:/usr/bin"; "HOME" := "/root" ]}.
Proof.
  intros run. split; [by vm_compute|].
  destruct (@run_test_prepends_path runtime _ models (host writing_converter)
              (toolkit writing_converter) mobilenet_test ()
              (boot writing_converter) run.2)
    as (path & Hpath & Henv & _).
  - intros m g t w. reflexivity.
  - intros q p g w. reflexivity.
  - by vm_compute.
  - rewrite Henv. vm_compute in Hpath. injection Hpath as <-. by vm_compute.
Defined.

(** C2, on the code: with a converter that exits with code zero and
    writes nothing, the run reaches [os.path.exists], which answers [False]
    on the disk the converter left, and [run_test] still returns normally. *)
Theorem run_test_ignores_missing_artifact :
  let run := @run_test runtime _ models (host silent_converter)
               (toolkit silent_converter) mobilenet_test ()
               (boot silent_converter) in
  run.1 = Ok () ∧
  ∃ ev events,
    procs run.2 = ev :: events ∧
    ev_args ev = converter_cmd mobilenet_test "./mobilenet_pt/qmodel.onnx" ∧
    ev_outcome ev = Exited 0 ∧
    @host_exists (host silent_converter)
      (save_folder mobilenet_test +:+ "/qmodel.pbtxt") (ev_disk ev) = false.
Proof.
  intros run. split; [by vm_compute|].
  eexists _, _. split_and!; [by vm_compute..].
Qed.

End Runs.

(** * Further properties of the code *)

(** ** Resolution *)

Module ResolverExtras.
Import Resolver.

Section facts.
Context `{Runtime} `{TpcModels TPC}.

(** X1: the version reaches the dispatcher only through [str], so two
    version values with the same outcome of [str] resolve alike on every
    device type, whatever their types: [None] and the string ['None'],
    the integer [1] and the string ['1']. *)
Theorem same_str_same_resolution (version1 version2 : pyval) (device_type : string) :
  str version1 = str version2 →
  get_target_platform_capabilities version1 device_type =
  get_target_platform_capabilities version2 device_type.
Proof.
  intros Hstr.
  rewrite !ResolverFacts.get_target_platform_capabilities_unfold.
  by rewrite Hstr.
Qed.

End facts.

(** [None] resolves as the string ['None'] does. *)
Lemma same_str_same_resolution_witness :
  @str Sim.runtime PyNone = @str Sim.runtime (PyStr "None") ∧
  @get_target_platform_capabilities Sim.runtime _ Sim.models PyNone "imx500" =
  @get_target_platform_capabilities Sim.runtime _ Sim.models (PyStr "None") "imx500".
Proof.
  split; [reflexivity|].
  apply (@same_str_same_resolution Sim.runtime _ Sim.models). reflexivity.
Defined.

End ResolverExtras.

(** ** The bindings of [qnnpack_tpc/latest] *)

Module QnnpackExtras.
Import Qnnpack.

(** X2: the names the module binds. [FOUND_TORCH] and the three functions
    of [v1_0.tpc] are bound whether or not torch is found, each function
    under its own name, and [generate_pytorch_tpc] is bound only when it
    is: the conditional import changes the binding of no other name, and
    without torch a lookup of [generate_pytorch_tpc] in the module finds
    nothing. *)
Theorem latest_init_names (FOUND_TORCH : bool) :
  dom (latest_init FOUND_TORCH) =
    ({[ "FOUND_TORCH"; "get_tpc"; "generate_tpc"; "get_op_quantization_configs" ]}
     ∪ (if FOUND_TORCH then {[ "generate_pytorch_tpc" ]} else ∅) : gset string) ∧
  latest_init FOUND_TORCH !! "FOUND_TORCH" = Some (ObjBool FOUND_TORCH) ∧
  (∀ name, name ∈ ["get_tpc"; "generate_tpc"; "get_op_quantization_configs"] →
     latest_init FOUND_TORCH !! name = Some (ObjFunction v1_0_tpc name)) ∧
  (∀ name, name ≠ "generate_pytorch_tpc" → name ≠ "FOUND_TORCH" →
     latest_init FOUND_TORCH !! name = latest_init false !! name) ∧
  latest_init false !! "generate_pytorch_tpc" = None.
Proof.
  split_and!.
  - unfold latest_init, import_as. destruct FOUND_TORCH; cbv zeta;
      rewrite !dom_insert_L, dom_empty_L; set_solver.
  - by destruct FOUND_TORCH.
  - intros name Hname. unfold latest_init, import_as.
    repeat (apply elem_of_cons in Hname as [->|Hname]);
      [..|by apply elem_of_nil in Hname];
      by destruct FOUND_TORCH.
  - intros name Hname Hflag. destruct FOUND_TORCH; [|done].
    unfold latest_init, import_as; cbv zeta.
    rewrite !(lookup_insert_ne _ "generate_pytorch_tpc") by congruence.
    rewrite !lookup_insert. repeat case_decide; congruence.
  - done.
Qed.

End QnnpackExtras.

(** ** The deployment test *)

Module DeploymentExtras.
Import Resolver Deployment TestEntry DeploymentFacts.

Section facts.
Context `{Runtime} `{TpcModels TPC} `{Host} `{!Toolkit TPC}.

(** *** [check_libs] *)

(** X3: [check_libs] stops at the first check that fails. When the call
    for [java -version] does not return with code zero, the converter is
    not asked: [check_libs] has run one child process and raises,
    [SystemExit] with the Java message when the call returned a non-zero
    code, the error of the operating system ([FileNotFoundError] for a
    missing binary) when [java] could not be started at all, and
    [UnicodeDecodeError] when what [java] wrote does not decode, whatever
    its exit code. *)
Theorem check_libs_stops_at_java (self : NetworkDeploymentBaseTest)
    (w : world) (outcome : spawn_outcome) (d : FS) :
  host_spawn java_cmd (environ w) (disk w) = (outcome, d) →
  ¬ run_returns java_cmd (environ w) (disk w) 0 →
  check_libs self w =
    (Raise match outcome with
           | SpawnFailed err => os_exn err java_cmd
           | Exited _ =>
               if host_output_decodes java_cmd (environ w) (disk w)
               then SystemExit "Stopping execution: Java is not installed."
               else UnicodeDecodeError
           end,
     World (environ w) d (rng w)
       (ProcEvent java_cmd (environ w) outcome d :: procs w)).
Proof.
  intros Hspawn Hfail. rewrite check_libs_run. unfold run_returns in Hfail.
  rewrite Hspawn in *. destruct outcome as [rc|err]; [|done].
  destruct (host_output_decodes java_cmd (environ w) (disk w)); simpl; [|done].
  rewrite bool_decide_eq_true_2; [done|]. intros ->. by apply Hfail.
Qed.

(** X4: what [check_libs] touches. It leaves [os.environ] and the random
    generator as they were, runs one or two child processes, [java] first,
    each with [os.environ] as its environment, and leaves the disk as the
    last child left it; when it returns normally both checks have run, the
    converter's after [java]'s. *)
Theorem check_libs_frame (self : NetworkDeploymentBaseTest) (w : world) :
  environ (check_libs self w).2 = environ w ∧
  rng (check_libs self w).2 = rng w ∧
  ∃ events first,
    procs (check_libs self w).2 = (events ++ first :: procs w)%list ∧
    (length events ≤ 1)%nat ∧
    ev_args first = java_cmd ∧
    Forall (λ ev, ev_env ev = environ w) (events ++ [first]) ∧
    Some (disk (check_libs self w).2) = ev_disk <$> head (events ++ [first]) ∧
    ((check_libs self w).1 = Ok () →
     ∃ second, events = [second] ∧ ev_args second = imxconv_cmd ∧
               ev_outcome second = Exited 0 ∧ ev_outcome first = Exited 0).
Proof.
  rewrite check_libs_run.
  destruct (host_spawn java_cmd (environ w) (disk w)) as [[rc1|err1] d1].
  2:{ split_and!; [done..|]. eexists [], _. split_and!; simpl; by eauto. }
  destruct (host_output_decodes java_cmd (environ w) (disk w)); simpl.
  2:{ split_and!; [done..|]. eexists [], _. split_and!; simpl; by eauto. }
  case_bool_decide as Hrc1.
  { split_and!; [done..|]. eexists [], _. split_and!; simpl; by eauto. }
  assert (rc1 = 0) as -> by lia.
  destruct (host_spawn imxconv_cmd (environ w) d1) as [[rc2|err2] d2].
  2:{ split_and!; [done..|]. eexists [_], _. split_and!; simpl; by eauto. }
  destruct (host_output_decodes imxconv_cmd (environ w) d1); simpl.
  2:{ split_and!; [done..|]. eexists [_], _. split_and!; simpl; by eauto. }
  case_bool_decide as Hrc2.
  { split_and!; [done..|]. eexists [_], _. split_and!; simpl; by eauto. }
  assert (rc2 = 0) as -> by lia.
  split_and!; [done..|]. eexists [_], _. split_and!; simpl; eauto.
Qed.

(** *** [run_test] *)

(** X5: a failure of the resolution stops [run_test] before the toolkit
    is called: the exception of [get_tpc] is raised as it is, and what the
    run leaves behind is the save folder it created first, with
    [os.environ], the random generator and the record of child processes as
    they were. *)
Theorem run_test_tpc_failure (self : NetworkDeploymentBaseTest)
    (float_model : FloatModel) (w : world) (d : FS) (e : exn) :
  host_makedirs (save_folder self) (disk w) = (Ok (), d) →
  get_tpc self = Raise e →
  run_test self float_model w =
    (Raise e, World (environ w) d (rng w) (procs w)).
Proof.
  intros Hmk Htpc. unfold run_test.
  rewrite bind_run. unfold os_makedirs at 1, with_disk at 1. rewrite Hmk.
  cbv beta zeta. rewrite bind_run. unfold lift at 1. by rewrite Htpc.
Qed.

(** [run_test] from [check_libs] on. *)
Lemma run_test_after_checks (self : NetworkDeploymentBaseTest)
    (float_model : FloatModel) (w w3 : world) :
  passes_checks self float_model w w3 →
  run_test self float_model w =
  match environ w3 !! "PATH" with
  | None => (Raise (KeyError "PATH"), w3)
  | Some path =>
      let env := prepended (environ w3) path in
      let cmd := converter_cmd self
                   (Posixpath.join (save_folder self) "qmodel.onnx") in
      let '(outcome, d) := host_spawn cmd env (disk w3) in
      let w4 := World env d (rng w3) (ProcEvent cmd env outcome d :: procs w3) in
      match outcome with
      | SpawnFailed err => (Raise (os_exn err cmd), w4)
      | Exited rc =>
          if bool_decide (rc ≠ 0) then (Raise (CalledProcessError rc cmd), w4)
          else
            let '(r, d') := host_rmtree (save_folder self) d in
            (r, World env d' (rng w3) (procs w4))
      end
  end.
Proof.
  intros (w1 & tpc & w2 & Hmk & Htpc & Hmct & Hlibs). unfold run_test.
  rewrite bind_run, Hmk. cbv beta zeta.
  rewrite bind_run. unfold lift at 1. rewrite Htpc.
  rewrite bind_run, Hmct, bind_run, Hlibs. cbv beta zeta.
  rewrite bind_run. unfold os_environ_get at 1.
  destruct (environ w3 !! "PATH") as [path|]; [|done].
  rewrite bind_run. unfold os_environ_set at 1.
  rewrite bind_run. unfold os_environ_copy at 1. simpl environ.
  rewrite bind_run. unfold subprocess_run at 1. simpl.
  fold (prepended (environ w3) path).
  destruct (host_spawn _ _ (disk w3)) as [[rc|err] d]; [|done].
  case_bool_decide; [done|].
  rewrite bind_run. unfold os_path_exists at 1, with_disk at 1. simpl.
  unfold shutil_rmtree, with_disk. simpl.
  by destruct (host_rmtree (save_folder self) d).
Qed.

(** X6: with [PATH] unset, a run that has come past [check_libs] raises
    [KeyError] for [PATH] from the lookup of line 91 and stops there: the
    converter is not started and the save folder is not removed. *)
Theorem run_test_path_unset (self : NetworkDeploymentBaseTest)
    (float_model : FloatModel) (w w3 : world) :
  passes_checks self float_model w w3 →
  environ w3 !! "PATH" = None →
  run_test self float_model w = (Raise (KeyError "PATH"), w3).
Proof.
  intros Hchecks Hpath.
  by rewrite (run_test_after_checks _ _ _ _ Hchecks), Hpath.
Qed.

(** X7: a converter that does not exit with code zero is fatal and skips
    the clean-up. [run_test] raises [CalledProcessError] with the
    converter's code and command (or the operating system's error when the
    converter could not be started); the disk is as the converter left it,
    the save folder not removed; and [os.environ] keeps the [PATH] that was
    set for the converter. *)
Theorem run_test_converter_failure (self : NetworkDeploymentBaseTest)
    (float_model : FloatModel) (w w3 : world)
    (path : string) (outcome : spawn_outcome) (d : FS) :
  let env := prepended (environ w3) path in
  let cmd := converter_cmd self (Posixpath.join (save_folder self) "qmodel.onnx") in
  passes_checks self float_model w w3 →
  environ w3 !! "PATH" = Some path →
  host_spawn cmd env (disk w3) = (outcome, d) →
  outcome ≠ Exited 0 →
  run_test self float_model w =
    (Raise match outcome with
           | SpawnFailed err => os_exn err cmd
           | Exited rc => CalledProcessError rc cmd
           end,
     World env d (rng w3) (ProcEvent cmd env outcome d :: procs w3)).
Proof.
  intros env cmd Hchecks Hpath Hspawn Hfail.
  rewrite (run_test_after_checks _ _ _ _ Hchecks), Hpath. cbv zeta.
  fold env cmd. rewrite Hspawn.
  destruct outcome as [rc|err]; [|done].
  rewrite bool_decide_eq_true_2; [done|]. congruence.
Qed.

(** X8: once the converter has exited with code zero, the outcome of
    [run_test] is the outcome of [shutil.rmtree] on the save folder,
    whatever [os.path.exists] answers for the artifact: the run returns
    normally when the removal succeeds and raises the removal's exception
    when it fails. *)
Theorem run_test_outcome_is_cleanup (self : NetworkDeploymentBaseTest)
    (float_model : FloatModel) (w w3 : world) (path : string) (d : FS) :
  let env := prepended (environ w3) path in
  let cmd := converter_cmd self (Posixpath.join (save_folder self) "qmodel.onnx") in
  passes_checks self float_model w w3 →
  environ w3 !! "PATH" = Some path →
  host_spawn cmd env (disk w3) = (Exited 0, d) →
  run_test self float_model w =
    ((host_rmtree (save_folder self) d).1,
     World env (host_rmtree (save_folder self) d).2 (rng w3)
       (ProcEvent cmd env (Exited 0) d :: procs w3)).
Proof.
  intros env cmd Hchecks Hpath Hspawn.
  rewrite (run_test_after_checks _ _ _ _ Hchecks), Hpath. cbv zeta.
  fold env cmd. rewrite Hspawn. rewrite bool_decide_eq_false_2 by lia.
  by destruct (host_rmtree (save_folder self) d).
Qed.

Lemma passes_checks_environ (self : NetworkDeploymentBaseTest)
    (float_model : FloatModel) (w w3 : world) :
  (∀ m g t, keeps_environ (pytorch_post_training_quantization m g t)) →
  (∀ q p g, keeps_environ (pytorch_export_model q p g)) →
  passes_checks self float_model w w3 →
  environ w3 = environ w.
Proof.
  intros Hptq Hexport (w1 & tpc & w2 & Hmk & _ & Hmct & Hlibs).
  apply keeps_environ_run in Hmk; [|apply keeps_environ_with_disk].
  apply keeps_environ_run in Hmct; [|by apply keeps_environ_run_mct].
  apply keeps_environ_run in Hlibs; [|apply keeps_environ_check_libs].
  congruence.
Qed.

(** X9: [run_test] changes [os.environ] exactly when it comes past
    [check_libs] with [PATH] set, and then whatever happens afterwards:
    whether the run returns or raises (a converter that fails, a folder
    that cannot be removed), [os.environ] is left as the old one with the
    interpreter's directory put in front of [PATH]. In every other run,
    one that stops before line 91 or finds [PATH] unset, [os.environ] is
    left as it was. The toolkit's two collaborators are taken not to write
    to [os.environ]. *)
Theorem run_test_environ_cases (self : NetworkDeploymentBaseTest)
    (float_model : FloatModel) (w : world) :
  (∀ m g t, keeps_environ (pytorch_post_training_quantization m g t)) →
  (∀ q p g, keeps_environ (pytorch_export_model q p g)) →
  (∀ w3 path,
     passes_checks self float_model w w3 →
     environ w !! "PATH" = Some path →
     environ (run_test self float_model w).2 = prepended (environ w) path) ∧
  ((∀ w3, ¬ passes_checks self float_model w w3) ∨ environ w !! "PATH" = None →
   environ (run_test self float_model w).2 = environ w).
Proof.
  intros Hptq Hexport. split.
  - intros w3 path Hchecks Hpath.
    pose proof (passes_checks_environ _ _ _ _ Hptq Hexport Hchecks) as E.
    rewrite (run_test_after_checks _ _ _ _ Hchecks), E, Hpath. cbv zeta.
    destruct (host_spawn _ _ (disk w3)) as [[rc|err] d]; [|done].
    case_bool_decide; [done|].
    by destruct (host_rmtree (save_folder self) d).
  - intros Hstops.
    destruct (os_makedirs (save_folder self) w) as [[[]|e] w1] eqn:Hmk.
    2:{ unfold run_test. rewrite bind_run, Hmk.
        eapply keeps_environ_run; [apply keeps_environ_with_disk|exact Hmk]. }
    apply keeps_environ_run in Hmk as E1; [|apply keeps_environ_with_disk].
    destruct (get_tpc self) as [tpc|e] eqn:Htpc.
    2:{ unfold run_test. rewrite bind_run, Hmk. cbv beta zeta.
        rewrite bind_run. unfold lift at 1. by rewrite Htpc. }
    destruct (run_mct self tpc float_model
                (Posixpath.join (save_folder self) "qmodel.onnx") w1)
      as [[[]|e] w2] eqn:Hmct;
      (apply keeps_environ_run in Hmct as E2; [|by apply keeps_environ_run_mct]).
    2:{ unfold run_test. rewrite bind_run, Hmk. cbv beta zeta.
        rewrite bind_run. unfold lift at 1. rewrite Htpc.
        rewrite bind_run, Hmct. simpl. congruence. }
    destruct (check_libs self w2) as [[[]|e] w3] eqn:Hlibs;
      (apply keeps_environ_run in Hlibs as E3; [|apply keeps_environ_check_libs]).
    2:{ unfold run_test. rewrite bind_run, Hmk. cbv beta zeta.
        rewrite bind_run. unfold lift at 1. rewrite Htpc.
        rewrite bind_run, Hmct, bind_run, Hlibs. simpl. congruence. }
    assert (passes_checks self float_model w w3) as Hchecks
      by (by exists w1, tpc, w2).
    destruct Hstops as [Hnone|Hpath]; [by destruct (Hnone w3)|].
    assert (environ w3 = environ w) as E by congruence.
    rewrite (run_test_after_checks _ _ _ _ Hchecks), E, Hpath. done.
Qed.

Lemma length_append (s1 s2 : string) :
  String.length (s1 +:+ s2) = (String.length s1 + String.length s2)%nat.
Proof.
  induction s1 as [|a s1 IH]; [done|].
  change (S (String.length (s1 +:+ s2)) =
          S (String.length s1 + String.length s2)).
  by rewrite IH.
Qed.

Lemma prepended_differs (dir path : string) : dir +:+ ":" +:+ path ≠ path.
Proof.
  intros Heq. apply (f_equal String.length) in Heq.
  rewrite !length_append in Heq. simpl in Heq. lia.
Qed.

(** X18: the two version checks and the converter do not run in the same
    environment. In a run that has come past [check_libs] the last three
    child processes are [java -version], [imxconv-pt --version] and the
    converter, in that order; the two checks were started with [os.environ]
    as it was, the converter with the interpreter's directory put in front
    of [PATH], which is a different value of [PATH]: [check_libs] looks the
    converter up on the old [PATH]. *)
Theorem checks_run_with_old_path (self : NetworkDeploymentBaseTest)
    (float_model : FloatModel) (w w3 : world) (path : string) :
  passes_checks self float_model w w3 →
  environ w3 !! "PATH" = Some path →
  ∃ conv imx java rest,
    procs (run_test self float_model w).2 = conv :: imx :: java :: rest ∧
    ev_args java = java_cmd ∧
    ev_args imx = imxconv_cmd ∧
    ev_args conv =
      converter_cmd self (Posixpath.join (save_folder self) "qmodel.onnx") ∧
    ev_env java = environ w3 ∧
    ev_env imx = environ w3 ∧
    ev_env conv = prepended (environ w3) path ∧
    ev_env conv !! "PATH" ≠ ev_env imx !! "PATH".
Proof.
  intros Hchecks Hpath.
  rewrite (run_test_after_checks _ _ _ _ Hchecks), Hpath. cbv zeta.
  destruct Hchecks as (w1 & tpc & w2 & _ & _ & _ & Hlibs).
  rewrite check_libs_run in Hlibs.
  destruct (host_spawn java_cmd (environ w2) (disk w2)) as [[rc1|err1] d1];
    [|done].
  destruct (host_output_decodes java_cmd (environ w2) (disk w2));
    simpl in Hlibs; [|done].
  case_bool_decide; [done|].
  destruct (host_spawn imxconv_cmd (environ w2) d1) as [[rc2|err2] d2];
    [|done].
  destruct (host_output_decodes imxconv_cmd (environ w2) d1);
    simpl in Hlibs; [|done].
  case_bool_decide; [done|]. injection Hlibs as <-. simpl in *.
  assert (prepended (environ w2) path !! "PATH" ≠ environ w2 !! "PATH") as Hne.
  { unfold prepended. rewrite lookup_insert_eq, Hpath.
    intros [= Heq]. by apply prepended_differs in Heq. }
  destruct (host_spawn _ _ d2) as [[rc|err] d].
  - case_bool_decide.
    + by eexists _, _, _, _.
    + destruct (host_rmtree (save_folder self) d). by eexists _, _, _, _.
  - by eexists _, _, _, _.
Qed.

(** *** [get_input_shapes], [generate_inputs] *)

(** X10: [get_input_shapes] returns [num_of_inputs] copies of the stored
    input shape, and the empty list when [num_of_inputs] is zero or
    negative. *)
Theorem get_input_shapes_copies (self : NetworkDeploymentBaseTest) :
  Z.of_nat (length (get_input_shapes self)) = Z.max 0 (num_of_inputs self) ∧
  Forall (λ dims, dims = input_shape self) (get_input_shapes self) ∧
  (num_of_inputs self ≤ 0 → get_input_shapes self = []).
Proof.
  rewrite get_input_shapes_replicate. split_and!.
  - rewrite length_replicate. lia.
  - apply Forall_replicate. done.
  - intros Hk. by replace (Z.to_nat (num_of_inputs self)) with 0%nat by lia.
Qed.

Lemma check_dimensions_negative (nbytes : Z) (dims : list Z) :
  ¬ Forall (λ d, 0 ≤ d) dims →
  ∃ msg, check_dimensions nbytes dims = Raise (ValueError msg).
Proof.
  revert nbytes. induction dims as [|d dims IH]; intros nbytes Hdims; simpl.
  - by destruct Hdims.
  - assert (0 ≤ d → ¬ Forall (λ d, 0 ≤ d) dims) as Htail.
    { intros Hd Hall. apply Hdims. by constructor. }
    case_bool_decide; [apply IH, Htail; lia|].
    case_bool_decide; [by eexists|].
    case_bool_decide; [by eexists|]. apply IH, Htail. lia.
Qed.

(** A shape with a negative dimension is refused with a [ValueError]: by
    one of the checks that come before the negative dimension is looked
    at, or for the negative dimension itself. *)
Lemma np_random_randn_negative (dims : list Z) (w : world) :
  ¬ Forall (λ d, 0 ≤ d) dims →
  ∃ msg, np_random_randn dims w = (Raise (ValueError msg), w).
Proof.
  intros Hdims. unfold np_random_randn, np_empty_checks.
  case_bool_decide; [by eexists|]. case_bool_decide; [|by eexists].
  destruct (check_dimensions_negative 8 dims Hdims) as [msg ->]. by exists msg.
Qed.

Lemma mapM_cons_run {A B} (f : A → M B) (x : A) (l : list A) (w : world) :
  mapM f (x :: l) w =
  match f x w with
  | (Ok y, w1) =>
      match mapM f l w1 with
      | (Ok k, w2) => (Ok (y :: k), w2)
      | (Raise e, w2) => (Raise e, w2)
      end
  | (Raise e, w1) => (Raise e, w1)
  end.
Proof.
  change (mapM f (x :: l)) with (f x ≫= λ y, mapM f l ≫= λ k, mret (y :: k)).
  rewrite bind_run. destruct (f x w) as [[y|e] w1]; [|done].
  rewrite bind_run. by destruct (mapM f l w1) as [[k|e] w2].
Qed.


(** X12: with no input asked for ([num_of_inputs] zero or negative),
    [generate_inputs] returns the empty batch and draws nothing, whatever
    the stored shape is. *)
Theorem generate_inputs_no_inputs (self : NetworkDeploymentBaseTest) (w : world) :
  num_of_inputs self ≤ 0 →
  generate_inputs self w = (Ok [], w).
Proof.
  intros Hk. unfold generate_inputs. rewrite get_input_shapes_replicate.
  by replace (Z.to_nat (num_of_inputs self)) with 0%nat by lia.
Qed.

Lemma draw_app (a b : nat) (g : RNG) :
  draw (a + b) g =
  ((draw a g).1 ++ (draw b (draw a g).2).1, (draw b (draw a g).2).2)%list.
Proof.
  revert g. induction a as [|a IH]; intros g; simpl.
  - by destruct (draw b g).
  - destruct (host_standard_normal g) as [x g1]. rewrite IH.
    by destruct (draw a g1) as [xs g2].
Qed.

Lemma np_random_randn_draws (dims : list Z) (w : world) :
  np_empty_accepts dims = true →
  ∃ a w', np_random_randn dims w = (Ok a, w') ∧
          data a = (draw (Z.to_nat (numel dims)) (rng w)).1 ∧
          rng w' = (draw (Z.to_nat (numel dims)) (rng w)).2.
Proof.
  intros Hdims. unfold np_random_randn. unfold np_empty_accepts in Hdims.
  destruct (np_empty_checks dims) as [[]|e]; [|done].
  destruct (draw _ (rng w)) as [xs g]. by eexists _, _.
Qed.

Lemma mapM_randn_draws (dims : list Z) (count : nat) (w : world) :
  np_empty_accepts dims = true →
  ∃ batch w', mapM np_random_randn (replicate count dims) w = (Ok batch, w') ∧
    batch ≫= data = (draw (count * Z.to_nat (numel dims)) (rng w)).1 ∧
    rng w' = (draw (count * Z.to_nat (numel dims)) (rng w)).2.
Proof.
  intros Hdims. revert w. induction count as [|count IH]; intros w.
  - by exists [], w.
  - destruct (np_random_randn_draws dims w Hdims) as (a & w1 & Ha & Hdata & Hrng).
    destruct (IH w1) as (batch & w2 & Hrest & Hbatch & Hrng2).
    exists (a :: batch), w2. simpl replicate.
    rewrite mapM_cons_run, Ha, Hrest. simpl Nat.mul. rewrite draw_app. simpl.
    change (list_bind _ _ data batch) with (batch ≫= data).
    rewrite Hdata, Hbatch, Hrng2, Hrng. done.
Qed.

(** X13: the arrays of one batch hold consecutive draws of the random
    generator, in order: for a stored shape that [np.empty] hands out an
    array for, a batch of [num_of_inputs] arrays takes [num_of_inputs]
    times the number of elements of the shape from the generator, the
    first array first, and leaves the generator after them. *)
Theorem generate_inputs_draws (self : NetworkDeploymentBaseTest) (w : world) :
  let count := (Z.to_nat (num_of_inputs self) *
                Z.to_nat (numel (input_shape self)))%nat in
  np_empty_accepts (input_shape self) = true →
  ∃ batch w',
    generate_inputs self w = (Ok batch, w') ∧
    batch ≫= data = (draw count (rng w)).1 ∧
    rng w' = (draw count (rng w)).2.
Proof.
  intros count Hdims. unfold generate_inputs.
  rewrite get_input_shapes_replicate. by apply mapM_randn_draws.
Qed.

(** *** [representative_data_gen] *)

(** X14: a negative dimension in the stored shape ends the generator at
    its first [next]: with at least one iteration and one input asked for,
    the first [next] raises a [ValueError], no batch is yielded, nothing is
    drawn, and the generator is finished, so that every later [next] raises
    [StopIteration]. *)
Theorem generator_invalid_shape (self : NetworkDeploymentBaseTest)
    (w : world) (demand : nat) :
  0 < num_calibration_iter self →
  0 < num_of_inputs self →
  ¬ Forall (λ d, 0 ≤ d) (input_shape self) →
  ∃ msg g',
    iterate (S demand) (representative_data_gen self) w =
      ([], Some (ValueError msg), g', w) ∧
    gi_finished g' = true ∧
    ∀ w', next g' w' = (Raise StopIteration, g', w').
Proof.
  intros Hn Hk Hdims.
  destruct (np_random_randn_negative (input_shape self) w Hdims) as [msg Hmsg].
  exists msg. eexists. split_and!.
  - simpl. unfold next; simpl. rewrite bool_decide_eq_true_2 by done.
    unfold generate_inputs. rewrite get_input_shapes_replicate.
    destruct (Z.to_nat (num_of_inputs self)) as [|k] eqn:Hcount; [lia|].
    simpl replicate. by rewrite mapM_cons_run, Hmsg.
  - done.
  - done.
Qed.

(** X15: with [num_calibration_iter] zero or negative the generator is
    empty: its first [next] raises [StopIteration] without calling
    [generate_inputs], so nothing is drawn, whatever the stored shape and
    the number of inputs are. *)
Theorem generator_no_iterations (self : NetworkDeploymentBaseTest)
    (w : world) (demand : nat) :
  num_calibration_iter self ≤ 0 →
  iterate (S demand) (representative_data_gen self) w =
    ([], Some StopIteration, Generator self 0 true, w).
Proof.
  intros Hn. simpl. unfold next; simpl.
  by rewrite bool_decide_eq_false_2 by lia.
Qed.

Lemma samples_cons (batch : list ndarray) (batches : list (list ndarray)) :
  samples (batch :: batches) = ((batch ≫= data) ++ samples batches)%list.
Proof. reflexivity. Qed.

(** The draws of a full iteration from a suspended generator. *)
Lemma iterate_draws (self : NetworkDeploymentBaseTest) (demand : nat)
    (i : Z) (w : world) :
  np_empty_accepts (input_shape self) = true →
  0 ≤ i ≤ num_calibration_iter self →
  num_calibration_iter self - i < Z.of_nat demand →
  let count := (Z.to_nat (num_calibration_iter self - i) *
                (Z.to_nat (num_of_inputs self) *
                 Z.to_nat (numel (input_shape self))))%nat in
  ∃ batches g' w',
    iterate demand (Generator self i false) w =
      (batches, Some StopIteration, g', w') ∧
    samples batches = (draw count (rng w)).1 ∧
    rng w' = (draw count (rng w)).2.
Proof.
  intros Hdims. revert i w.
  induction demand as [|demand IH]; intros i w Hi Hdemand count; [lia|].
  simpl. unfold next at 1; simpl. case_bool_decide as Hlt.
  - unfold generate_inputs. rewrite get_input_shapes_replicate.
    destruct (mapM_randn_draws (input_shape self)
                (Z.to_nat (num_of_inputs self)) w Hdims)
      as (batch & w1 & -> & Hbatch & Hrng).
    destruct (IH (i + 1) w1 ltac:(lia) ltac:(lia))
      as (batches & g' & w' & -> & Hsamples & Hrng').
    exists (batch :: batches), g', w'. split; [done|].
    rewrite samples_cons, Hbatch, Hsamples, Hrng', Hrng. subst count.
    replace (Z.to_nat (num_calibration_iter self - i))
      with (S (Z.to_nat (num_calibration_iter self - (i + 1)))) by lia.
    simpl Nat.mul. rewrite draw_app. done.
  - exists [], (Generator self i true), w. subst count.
    by replace (Z.to_nat (num_calibration_iter self - i)) with 0%nat by lia.
Qed.

(** X16: a second iteration does not start the random stream again. For
    a stored shape that [np.empty] hands out an array for, iterating a
    fresh generator to its end takes [num_calibration_iter * num_of_inputs
    * numel input_shape] consecutive draws from the process-wide random
    generator, and a second fresh generator iterated afterwards takes the
    draws that follow them: the two iterations together hold one run of
    consecutive draws, in order. *)
Theorem two_passes_consecutive_draws (self : NetworkDeploymentBaseTest)
    (w : world) (demand : nat) :
  let count := (Z.to_nat (num_calibration_iter self) *
                (Z.to_nat (num_of_inputs self) *
                 Z.to_nat (numel (input_shape self))))%nat in
  np_empty_accepts (input_shape self) = true →
  0 ≤ num_calibration_iter self →
  num_calibration_iter self < Z.of_nat demand →
  ∃ batches1 g1 w1 batches2 g2 w2,
    iterate demand (representative_data_gen self) w =
      (batches1, Some StopIteration, g1, w1) ∧
    iterate demand (representative_data_gen self) w1 =
      (batches2, Some StopIteration, g2, w2) ∧
    samples batches1 = (draw count (rng w)).1 ∧
    samples batches2 = (draw count (draw count (rng w)).2).1 ∧
    (samples batches1 ++ samples batches2)%list = (draw (count + count) (rng w)).1.
Proof.
  intros count Hdims Hn Hdemand.
  destruct (iterate_draws self demand 0 w Hdims ltac:(lia) ltac:(lia))
    as (batches1 & g1 & w1 & Hrun1 & Hs1 & Hrng1).
  destruct (iterate_draws self demand 0 w1 Hdims ltac:(lia) ltac:(lia))
    as (batches2 & g2 & w2 & Hrun2 & Hs2 & Hrng2).
  rewrite Z.sub_0_r in *. fold count in Hs1, Hrng1, Hs2, Hrng2.
  exists batches1, g1, w1, batches2, g2, w2.
  rewrite draw_app, Hs1, Hs2, Hrng1. done.
Qed.

End facts.

(** *** [test_network_deployment_tpc_version] *)

Section entry.
Context `{Runtime} `{TpcModels TPC} `{Host} `{!Toolkit TPC} `{!Torchvision}.

(** X17: the test takes its version from the variable [TPC_VERSION] as
    read before the model is built, and runs [run_test] on the IMX500
    device type with the save folder [./mobilenet_pt]. The dispatcher of
    [IMX500_TP_MODEL] is asked for exactly the variable's value; when the
    variable is unset, [os.getenv] gives [None] and the dispatcher is asked
    for the version ['None']. *)
Theorem test_version_from_environment (w : world) :
  let self := init (from_option PyStr PyNone (environ w !! "TPC_VERSION"))
                (Some IMX500_TP_MODEL) (Some "./mobilenet_pt")
                None None None None in
  test_network_deployment_tpc_version w = (mobilenet_v2 ≫= run_test self) w ∧
  get_tpc self =
    generate_tpc_func IMX500_TP_MODEL ≫= λ tpc_func,
      tpc_func (default "None" (environ w !! "TPC_VERSION")).
Proof.
  intros self. split; [done|].
  unfold get_tpc. rewrite ResolverFacts.get_target_platform_capabilities_unfold.
  subst self; simpl.
  destruct (generate_tpc_func IMX500_TP_MODEL); simpl; [|done].
  by destruct (environ w !! "TPC_VERSION").
Qed.

End entry.
End DeploymentExtras.

(** ** More runs on concrete machines *)

Module ExtraRuns.
Import Resolver Deployment TestEntry DeploymentExtras Sim SimTools.

(** Without [java] on the machine, [check_libs] raises [FileNotFoundError]
    after one child process. *)
Lemma check_libs_stops_at_java_witness :
  let w := boot_with (SpawnFailed ENOENT) (Exited 0) silent_converter usual_environ in
  (@check_libs no_java mobilenet_test w).1 = Raise (FileNotFoundError "java") ∧
  length (procs (@check_libs no_java mobilenet_test w).2) = 1%nat.
Proof.
  intros w.
  rewrite (@check_libs_stops_at_java no_java mobilenet_test w
             (SpawnFailed ENOENT) []); [done|reflexivity|].
  intros [Hrun _]. by vm_compute in Hrun.
Defined.

(** An unregistered version: the folder is created, nothing else has run. *)
Lemma run_test_tpc_failure_witness :
  let h := installed silent_converter in
  let w := boot_with (Exited 0) (Exited 0) silent_converter usual_environ in
  @run_test runtime _ models h (tools _ _ _) unregistered_test () w =
    (Raise (UnknownVersion "2.0"),
     @World h usual_environ ["./mobilenet_pt"] 0%nat []).
Proof.
  intros h w.
  apply (@run_test_tpc_failure runtime _ models h (tools _ _ _)
           unregistered_test () w ["./mobilenet_pt"] (UnknownVersion "2.0"));
    reflexivity.
Defined.

(** A process started without [PATH]. *)
Lemma run_test_path_unset_witness :
  let h := installed silent_converter in
  let w := boot_with (Exited 0) (Exited 0) silent_converter {[ "HOME" := "/root" ]} in
  (@run_test runtime _ models h (tools _ _ _) mobilenet_test () w).1 =
    Raise (KeyError "PATH").
Proof.
  intros h w.
  set (w1 := (@os_makedirs h "./mobilenet_pt" w).2).
  set (w2 := (@run_mct _ h (tools _ _ _) mobilenet_test "imx500 v1.0" ()
                "./mobilenet_pt/qmodel.onnx" w1).2).
  set (w3 := (@check_libs h mobilenet_test w2).2).
  rewrite (@run_test_path_unset runtime _ models h (tools _ _ _)
             mobilenet_test () w w3); [done| |by vm_compute].
  exists w1, "imx500 v1.0", w2. split_and!; by vm_compute.
Defined.

(** A converter that exits with code one: the folder and the exported
    model are still on the disk, and [PATH] has been changed. *)
Lemma run_test_converter_failure_witness :
  let h := installed failing_converter in
  let w := boot_with (Exited 0) (Exited 0) failing_converter usual_environ in
  let run := @run_test runtime _ models h (tools _ _ _) mobilenet_test () w in
  run.1 = Raise (CalledProcessError 1
                   (converter_cmd mobilenet_test "./mobilenet_pt/qmodel.onnx")) ∧
  disk run.2 = ["./mobilenet_pt/qmodel.onnx"; "./mobilenet_pt"] ∧
  environ run.2 !! "PATH" = Some "/opt/venv/bin:/usr/bin".
Proof.
  intros h w run. subst run.
  set (w1 := (@os_makedirs h "./mobilenet_pt" w).2).
  set (w2 := (@run_mct _ h (tools _ _ _) mobilenet_test "imx500 v1.0" ()
                "./mobilenet_pt/qmodel.onnx" w1).2).
  set (w3 := (@check_libs h mobilenet_test w2).2).
  rewrite (@run_test_converter_failure runtime _ models h (tools _ _ _)
             mobilenet_test () w w3 "/usr/bin" (Exited 1)
             ["./mobilenet_pt/qmodel.onnx"; "./mobilenet_pt"]).
  - split_and!; by vm_compute.
  - exists w1, "imx500 v1.0", w2. split_and!; by vm_compute.
  - by vm_compute.
  - by vm_compute.
  - done.
Defined.

(** A converter that exits with code zero and writes nothing: the run
    returns what the removal of the folder returns. *)
Lemma run_test_outcome_is_cleanup_witness :
  let h := installed silent_converter in
  let w := boot_with (Exited 0) (Exited 0) silent_converter usual_environ in
  let run := @run_test runtime _ models h (tools _ _ _) mobilenet_test () w in
  run.1 = Ok () ∧ disk run.2 = [].
Proof.
  intros h w run. subst run.
  set (w1 := (@os_makedirs h "./mobilenet_pt" w).2).
  set (w2 := (@run_mct _ h (tools _ _ _) mobilenet_test "imx500 v1.0" ()
                "./mobilenet_pt/qmodel.onnx" w1).2).
  set (w3 := (@check_libs h mobilenet_test w2).2).
  rewrite (@run_test_outcome_is_cleanup runtime _ models h (tools _ _ _)
             mobilenet_test () w w3 "/usr/bin"
             ["./mobilenet_pt/qmodel.onnx"; "./mobilenet_pt"]).
  - split; by vm_compute.
  - exists w1, "imx500 v1.0", w2. split_and!; by vm_compute.
  - by vm_compute.
  - by vm_compute.
Defined.

(** The three child processes of a run, and the [PATH] each was given. *)
Lemma checks_run_with_old_path_witness :
  let h := installed silent_converter in
  let w := boot_with (Exited 0) (Exited 0) silent_converter usual_environ in
  let run := @run_test runtime _ models h (tools _ _ _) mobilenet_test () w in
  ∃ conv imx java rest,
    procs run.2 = conv :: imx :: java :: rest ∧
    ev_env java !! "PATH" = Some "/usr/bin" ∧
    ev_env imx !! "PATH" = Some "/usr/bin" ∧
    ev_env conv !! "PATH" = Some "/opt/venv/bin:/usr/bin".
Proof.
  intros h w run. subst run.
  set (w1 := (@os_makedirs h "./mobilenet_pt" w).2).
  set (w2 := (@run_mct _ h (tools _ _ _) mobilenet_test "imx500 v1.0" ()
                "./mobilenet_pt/qmodel.onnx" w1).2).
  set (w3 := (@check_libs h mobilenet_test w2).2).
  destruct (@checks_run_with_old_path runtime _ models h (tools _ _ _)
              mobilenet_test () w w3 "/usr/bin")
    as (conv & imx & java & rest & Hprocs & _ & _ & _ & Hjava & Himx & Hconv & _).
  - exists w1, "imx500 v1.0", w2. split_and!; by vm_compute.
  - by vm_compute.
  - exists conv, imx, java, rest. rewrite Hjava, Himx, Hconv.
    split_and!; [done|by vm_compute..].
Defined.

(** A run that raises after line 91 leaves the new [PATH] behind. *)
Lemma run_test_environ_cases_witness :
  let h := installed failing_converter in
  let w := boot_with (Exited 0) (Exited 0) failing_converter usual_environ in
  let run := @run_test runtime _ models h (tools _ _ _) mobilenet_test () w in
  run.1 = Raise (CalledProcessError 1
                   (converter_cmd mobilenet_test "./mobilenet_pt/qmodel.onnx")) ∧
  environ run.2 = @prepended h usual_environ "/usr/bin".
Proof.
  intros h w run. split; [by vm_compute|].
  set (w1 := (@os_makedirs h "./mobilenet_pt" w).2).
  set (w2 := (@run_mct _ h (tools _ _ _) mobilenet_test "imx500 v1.0" ()
                "./mobilenet_pt/qmodel.onnx" w1).2).
  set (w3 := (@check_libs h mobilenet_test w2).2).
  destruct (@run_test_environ_cases runtime _ models h (tools _ _ _)
              mobilenet_test () w) as [Hchanged _].
  - intros m g t w0. reflexivity.
  - intros q p g w0. reflexivity.
  - apply (Hchanged w3 "/usr/bin"); [|by vm_compute].
    exists w1, "imx500 v1.0", w2. split_and!; by vm_compute.
Defined.


(** No input asked for, with a shape that has a negative dimension. *)
Lemma generate_inputs_no_inputs_witness :
  let w := boot silent_converter in
  @generate_inputs (host silent_converter) empty_test w = (Ok [], w).
Proof. intros w. by apply generate_inputs_no_inputs. Defined.

(** Two arrays of six elements hold the first twelve draws. *)
Lemma generate_inputs_draws_witness :
  let w := boot silent_converter in
  ∃ batch w',
    @generate_inputs (host silent_converter) small_test w = (Ok batch, w') ∧
    batch ≫= data = seq 0 12 ∧
    rng w' = 12%nat.
Proof.
  intros w.
  destruct (@generate_inputs_draws (host silent_converter) small_test w)
    as (batch & w' & Hrun & Hdata & Hrng); [reflexivity|].
  by exists batch, w'.
Defined.

(** The generator of a test whose shape has a negative dimension. *)
Lemma generator_invalid_shape_witness :
  let w := boot silent_converter in
  ∃ msg g',
    @iterate (host silent_converter) 3 (representative_data_gen negative_test) w =
      ([], Some (ValueError msg), g', w) ∧
    gi_finished g' = true.
Proof.
  intros w.
  destruct (@generator_invalid_shape (host silent_converter) negative_test w 2)
    as (msg & g' & Hrun & Hfinished & _); [done|done| |by exists msg, g'].
  intros Hdims. apply (Forall_lookup_1 _ _ 2%nat (-3)) in Hdims; [|done].
  simpl in Hdims. lia.
Defined.

(** The generator of a test that asks for no iteration. *)
Lemma generator_no_iterations_witness :
  let w := boot silent_converter in
  @iterate (host silent_converter) 3 (representative_data_gen empty_test) w =
    ([], Some StopIteration, Generator empty_test 0 true, w).
Proof. intros w. by apply (@generator_no_iterations _ empty_test w 2). Defined.

(** Two passes of two batches of twelve elements: forty-eight draws. *)
Lemma two_passes_consecutive_draws_witness :
  let w := boot silent_converter in
  ∃ batches1 g1 w1 batches2 g2 w2,
    @iterate (host silent_converter) 3 (representative_data_gen small_test) w =
      (batches1, Some StopIteration, g1, w1) ∧
    @iterate (host silent_converter) 3 (representative_data_gen small_test) w1 =
      (batches2, Some StopIteration, g2, w2) ∧
    samples batches1 = seq 0 24 ∧
    samples batches2 = seq 24 24.
Proof.
  intros w.
  destruct (@two_passes_consecutive_draws (host silent_converter) small_test w 3)
    as (b1 & g1 & w1 & b2 & g2 & w2 & Hrun1 & Hrun2 & Hs1 & Hs2 & _);
    [reflexivity|done|done|].
  by exists b1, g1, w1, b2, g2, w2.
Defined.

End ExtraRuns.
